(** * Healthcare chatbot backend: the fallback classifier, the /diagnose and
    /history handlers and the conversation log of [backend/app/main.py].

    Python [str] values are modelled as [string], the sequence of the bytes
    of their UTF-8 encoding.  Every keyword the program searches for is
    plain ASCII, and an ASCII byte never lies inside the encoding of
    another code point, so a keyword occurs in a text exactly when its bytes
    occur in the text's bytes. *)

From Stdlib Require Import String Ascii List Bool NArith ZArith Lia.
Import ListNotations.
Open Scope string_scope.

(** ** Python string primitives *)

Module Py.

(** The bytes of a string, given as numbers. *)
Fixpoint bytes (l : list N) : string :=
  match l with
  | [] => EmptyString
  | b :: l' => String (ascii_of_N b) (bytes l')
  end.

(** The UTF-8 encoding of a code point. *)
Definition utf8 (cp : N) : string :=
  (if cp <? 0x80 then bytes [cp]
   else if cp <? 0x800 then bytes [0xC0 + cp / 64; 0x80 + cp mod 64]
   else if cp <? 0x10000 then
     bytes [0xE0 + cp / 4096; 0x80 + (cp / 64) mod 64; 0x80 + cp mod 64]
   else
     bytes [0xF0 + cp / 262144; 0x80 + (cp / 4096) mod 64;
            0x80 + (cp / 64) mod 64; 0x80 + cp mod 64])%N.

(** [str.lower] on one ASCII character: the capitals are moved to their
    small letters.  A byte above 127 is kept. *)
Definition lower_char (c : ascii) : ascii :=
  let n := N_of_ascii c in
  if ((65 <=? n) && (n <=? 90))%N then ascii_of_N (n + 32) else c.

(** [s.lower()] as the classifier sees it.  Besides the ASCII capitals,
    [str.lower] changes non-ASCII code points; two of them get ASCII
    characters in their lowercase (U+212A to k, U+0130 to i and U+0307), the
    others do not.  No keyword of the classifier holds a k or ends in i, so
    its tests give on [lower s] what they give on [s.lower()]: see
    [lower_full] and [contains_lower_full]. *)
Fixpoint lower (s : string) : string :=
  match s with
  | EmptyString => EmptyString
  | String c rest => String (lower_char c) (lower rest)
  end.

(** [s.startswith(t)] *)
Fixpoint startswith (t s : string) : bool :=
  match t with
  | EmptyString => true
  | String c t' =>
      match s with
      | EmptyString => false
      | String d s' => Ascii.eqb c d && startswith t' s'
      end
  end.

(** U+212A KELVIN SIGN, U+0130 LATIN CAPITAL LETTER I WITH DOT ABOVE and
    U+0307 COMBINING DOT ABOVE. *)
Definition KELVIN_SIGN : string := utf8 0x212A.
Definition CAPITAL_I_WITH_DOT : string := utf8 0x130.
Definition COMBINING_DOT : string := utf8 0x307.

(** [s.lower()], exact in the ASCII characters of its result: the ASCII
    capitals become small letters, U+212A becomes k, U+0130 becomes i
    followed by U+0307.  The lowercase of any other non-ASCII code point
    holds no ASCII character; its bytes are kept.  [skip] counts the bytes
    still to pass over of a code point already handled. *)
Fixpoint lower_from (skip : nat) (s : string) : string :=
  match s with
  | EmptyString => EmptyString
  | String c rest =>
      match skip with
      | S k => lower_from k rest
      | O =>
          if startswith KELVIN_SIGN s then
            String "k" (lower_from 2 rest)
          else if startswith CAPITAL_I_WITH_DOT s then
            String "i" (COMBINING_DOT ++ lower_from 1 rest)
          else String (lower_char c) (lower_from 0 rest)
      end
  end.

Definition lower_full (s : string) : string := lower_from 0 s.

(** [kw in s] for two strings: [kw] starts at some position of [s]. *)
Fixpoint contains (kw s : string) : bool :=
  String.prefix kw s ||
  match s with
  | EmptyString => false
  | String _ rest => contains kw rest
  end.

(** [any(kw in s for kw in kws)] *)
Definition any_in (kws : list string) (s : string) : bool :=
  existsb (fun kw => contains kw s) kws.

(** The code points [c] for which [c.isspace()] holds: what [str.strip]
    removes. *)
Definition whitespace_code_points : list N :=
  [0x9; 0xA; 0xB; 0xC; 0xD; 0x1C; 0x1D; 0x1E; 0x1F; 0x20; 0x85; 0xA0;
   0x1680; 0x2000; 0x2001; 0x2002; 0x2003; 0x2004; 0x2005; 0x2006; 0x2007;
   0x2008; 0x2009; 0x200A; 0x2028; 0x2029; 0x202F; 0x205F; 0x3000]%N.

Definition whitespace : list string := map utf8 whitespace_code_points.

Fixpoint reverse (s : string) : string :=
  match s with
  | EmptyString => EmptyString
  | String c rest => reverse rest ++ String c EmptyString
  end.

(** The number of bytes of the token that [s] starts with, 0 when it starts
    with none of [tokens]. *)
Definition token_length (tokens : list string) (s : string) : nat :=
  match find (fun t => startswith t s) tokens with
  | Some t => String.length t
  | None => 0
  end.

(** [s] without the tokens it starts with; [skip] counts the bytes still to
    drop of the token being dropped. *)
Fixpoint drop_tokens (tokens : list string) (skip : nat) (s : string)
  : string :=
  match s with
  | EmptyString => EmptyString
  | String c rest =>
      match skip with
      | S k => drop_tokens tokens k rest
      | O =>
          match token_length tokens s with
          | O => s
          | S k => drop_tokens tokens k rest
          end
      end
  end.

(** [s.lstrip()] *)
Definition lstrip (s : string) : string := drop_tokens whitespace 0 s.

(** [s.rstrip()]: the same from the other end. *)
Definition rstrip (s : string) : string :=
  reverse (drop_tokens (map reverse whitespace) 0 (reverse s)).

(** [s.strip()] *)
Definition strip (s : string) : string := rstrip (lstrip s).

(** The exceptions the program can meet. *)
Inductive exn : Type :=
  | KeyError (key : string)
  | TypeError
  | AttributeError
  | OSError
  | JSONDecodeError
  | APIError
  | HTTPError (status_code : nat).

(** A dict with string keys, in insertion order. *)
Definition dict (V : Type) : Type := list (string * V).

Fixpoint dict_get {V : Type} (k : string) (d : dict V) : option V :=
  match d with
  | [] => None
  | (k', v) :: rest => if String.eqb k k' then Some v else dict_get k rest
  end.

(** [d[k]]: the value, or [KeyError]. *)
Definition getitem {V : Type} (d : dict V) (k : string) : exn + V :=
  match dict_get k d with
  | Some v => inr v
  | None => inl (KeyError k)
  end.

Definition keys {V : Type} (d : dict V) : list string := map fst d.
Definition values {V : Type} (d : dict V) : list V := map snd d.

End Py.

(** ** The fallback table and the fallback classifier *)

Definition nl : string := String (ascii_of_nat 10) EmptyString.

Definition mild_headache : string :=
  "For mild headaches, try: Rest in a quiet, dark room; Stay hydrated; Apply a cold or warm compress to your head; Consider over-the-counter pain relievers like ibuprofen or acetaminophen. If headaches persist or worsen, consult a healthcare provider.".

Definition mild_cold : string :=
  "For common cold symptoms: Get plenty of rest; Stay hydrated with water, warm tea, or clear broths; Use a humidifier or breathe steam from a hot shower; Gargle with warm salt water for sore throat. Most cold symptoms resolve within 7-10 days. Consult a doctor if symptoms worsen or persist beyond 10 days.".

Definition mild_fever : string :=
  "For mild fever (under 102°F): Rest and stay hydrated; Use over-the-counter fever reducers like acetaminophen or ibuprofen; Dress lightly and use cool compresses; Monitor temperature regularly. Seek medical attention if fever exceeds 102°F, persists more than 3 days, or is accompanied by severe symptoms.".

Definition mild_default : string :=
  "Based on your symptoms, here are some general recommendations: Get adequate rest; Stay well-hydrated; Monitor your symptoms; Consider over-the-counter remedies if appropriate. However, if symptoms worsen, persist, or you have concerns, please consult with a healthcare professional for proper evaluation and treatment.".

Definition serious_chest : string :=
  "⚠️ CHEST PAIN requires immediate medical attention. Please contact emergency services (911) or go to the nearest emergency room immediately. Do not delay seeking medical care for chest pain.".

Definition serious_breathing : string :=
  "⚠️ DIFFICULTY BREATHING is a serious symptom. Seek immediate medical attention by calling emergency services (911) or going to the nearest emergency room. This requires urgent evaluation by healthcare professionals.".

Definition serious_severe : string :=
  "⚠️ Based on your symptoms, this appears to require immediate medical attention. Please contact emergency services (911) or go to the nearest emergency room right away. Do not delay seeking professional medical care.".

Definition serious_default : string :=
  "⚠️ Your symptoms suggest you should seek medical attention promptly. Please contact your healthcare provider, urgent care center, or emergency services if symptoms are severe. Professional medical evaluation is recommended.".

(** [FALLBACK_RESPONSES]: severity, then keyword, to canned text. *)
Definition FALLBACK_RESPONSES : Py.dict (Py.dict string) :=
  [ ("mild",
      [ ("headache", mild_headache);
        ("cold", mild_cold);
        ("fever", mild_fever);
        ("default", mild_default) ]);
    ("serious",
      [ ("chest", serious_chest);
        ("breathing", serious_breathing);
        ("severe", serious_severe);
        ("default", serious_default) ]) ].

(** [FALLBACK_RESPONSES[sev][key], sev] *)
Definition canned (sev key : string) : Py.exn + (string * string) :=
  match Py.getitem FALLBACK_RESPONSES sev with
  | inl e => inl e
  | inr sub =>
      match Py.getitem sub key with
      | inl e => inl e
      | inr text => inr (text, sev)
      end
  end.

Definition serious_keywords : list string :=
  ["chest pain"; "chest"; "breathing"; "breath"; "severe"; "emergency";
   "unconscious"; "bleeding heavily"].

Definition mild_indicators : list string :=
  ["mild"; "slight"; "little"; "minor"].

(** [get_fallback_response(symptoms)]: the canned text and its severity. *)
Definition get_fallback_response (symptoms : string)
  : Py.exn + (string * string) :=
  let symptoms_lower := Py.lower symptoms in
  if Py.any_in serious_keywords symptoms_lower then
    if Py.contains "chest" symptoms_lower then canned "serious" "chest"
    else if Py.contains "breath" symptoms_lower then canned "serious" "breathing"
    else canned "serious" "severe"
  else if Py.contains "headache" symptoms_lower
          || Py.contains "head" symptoms_lower then
    canned "mild" "headache"
  else if Py.contains "cold" symptoms_lower
          || Py.contains "cough" symptoms_lower
          || Py.contains "runny nose" symptoms_lower then
    canned "mild" "cold"
  else if Py.contains "fever" symptoms_lower
          && Py.contains "mild" symptoms_lower then
    canned "mild" "fever"
  else if Py.any_in mild_indicators symptoms_lower then
    canned "mild" "default"
  else canned "serious" "default".

(** The rows of the table a lookup can hit: severity, key, text. *)
Definition table_rows : list (string * string * string) :=
  flat_map (fun row => map (fun kv => (fst row, fst kv, snd kv)) (snd row))
    FALLBACK_RESPONSES.

(** The canned texts of the table. *)
Definition canned_texts : list string :=
  flat_map (fun row => Py.values (snd row)) FALLBACK_RESPONSES.

(** ** The world the handlers run in *)

(** A JSON value, as [json.load] builds it and [json.dump] writes it. *)
#[local] Set Warnings "-register-all".
Inductive json : Type :=
  | JNull
  | JBool (b : bool)
  | JInt (n : Z)
  | JFloat (literal : string)
  | JStr (s : string)
  | JList (items : list json)
  | JDict (fields : list (string * json)).

(** The file at [CONVERSATIONS_FILE]: not there, there but [open] or
    [json.load] raises on it, or there and holding a JSON document. *)
Inductive file_state : Type :=
  | Missing
  | Unreadable
  | Holds (doc : json).

(** The lines the program prints. *)
Inductive line : Type :=
  | ErrorLoadingConversations
  | ErrorSavingConversation (e : Py.exn)
  | OpenAIAPIError (e : Py.exn)
  | ErrorInDiagnoseSymptoms (e : Py.exn)
  | ErrorGettingHistory (e : Py.exn).

(** [client] is [None] or a client; [create] is the outcome of the chat
    completion call on the user's message up to reading
    [response.choices[0].message.content]: the content, or the exception
    raised on the way.  The system prompt, the model name and the sampling
    parameters are the same in every call. *)
(** What happens when the log file is written: the write goes through;
    [os.makedirs] or [open] raises and the file is not touched; or the file
    is opened, hence emptied, and [json.dump] breaks off. *)
Inductive disk_state : Type :=
  | Writable
  | Refusing
  | Failing.

Record World : Type := mkWorld {
  conv_file : file_state;
  disk : disk_state;
  client : option (string -> Py.exn + string);
  clock : nat -> string;
  ticks : nat;
  stdout : list line
}.

Definition set_file (f : file_state) (w : World) : World :=
  mkWorld f (disk w) (client w) (clock w) (ticks w) (stdout w).

Definition set_ticks (n : nat) (w : World) : World :=
  mkWorld (conv_file w) (disk w) (client w) (clock w) n (stdout w).

Definition set_stdout (out : list line) (w : World) : World :=
  mkWorld (conv_file w) (disk w) (client w) (clock w) (ticks w) out.

(** ** Computations: state passing with exceptions *)

Definition M (A : Type) : Type := World -> (Py.exn + A) * World.

Definition ret {A : Type} (a : A) : M A := fun w => (inr a, w).

Definition raise {A : Type} (e : Py.exn) : M A := fun w => (inl e, w).

Definition bind {A B : Type} (m : M A) (k : A -> M B) : M B :=
  fun w =>
    match m w with
    | (inr a, w') => k a w'
    | (inl e, w') => (inl e, w')
    end.

(** [try: body except Exception as e: handler(e)] *)
Definition try_except {A : Type} (body : M A) (handler : Py.exn -> M A) : M A :=
  fun w =>
    match body w with
    | (inr a, w') => (inr a, w')
    | (inl e, w') => handler e w'
    end.

Definition lift {A : Type} (r : Py.exn + A) : M A := fun w => (r, w).

Declare Scope monad_scope.
Delimit Scope monad_scope with monad.
Notation "x <- m ;; k" := (bind m (fun x => k))
  (at level 61, m at next level, right associativity) : monad_scope.
Notation "m ;;; k" := (bind m (fun _ => k))
  (at level 61, right associativity) : monad_scope.
Open Scope monad_scope.

(** [print(...)] *)
Definition print (l : line) : M unit :=
  fun w => (inr tt, set_stdout (stdout w ++ [l]) w).

(** [datetime.now().isoformat()] *)
Definition datetime_now_isoformat : M string :=
  fun w => (inr (clock w (ticks w)), set_ticks (S (ticks w)) w).

(** [os.path.exists(CONVERSATIONS_FILE)] *)
Definition os_path_exists : M bool :=
  fun w =>
    match conv_file w with
    | Missing => (inr false, w)
    | _ => (inr true, w)
    end.

(** [with open(CONVERSATIONS_FILE, 'r') as f: json.load(f)] *)
Definition json_load_file : M json :=
  fun w =>
    match conv_file w with
    | Holds doc => (inr doc, w)
    | Unreadable => (inl Py.JSONDecodeError, w)
    | Missing => (inl Py.OSError, w)
    end.

(** [os.makedirs(..., exist_ok=True)] and
    [with open(CONVERSATIONS_FILE, 'w') as f: json.dump(data, f, indent=2)]:
    the file then holds [data], or [OSError] is raised. *)
Definition json_dump_file (data : json) : M unit :=
  fun w =>
    match disk w with
    | Writable => (inr tt, set_file (Holds data) w)
    | Refusing => (inl Py.OSError, w)
    | Failing => (inl Py.OSError, set_file Unreadable w)
    end.

(** ** The conversation log *)

Definition default_document : json := JDict [("conversations", JList [])].

(** [load_conversations()] *)
Definition load_conversations : M json :=
  there <- os_path_exists ;;
  if there : bool then
    try_except json_load_file
      (fun _ => print ErrorLoadingConversations ;;; ret default_document)
  else ret default_document.

(** Replace the value of the first [k] of a dict, keeping its place. *)
Fixpoint dict_set (k : string) (v : json) (d : list (string * json))
  : list (string * json) :=
  match d with
  | [] => []
  | (k', v') :: rest =>
      if String.eqb k k' then (k', v) :: rest
      else (k', v') :: dict_set k v rest
  end.

(** [data["conversations"].append(conversation)]: [data] after the call. *)
Definition append_conversation (data conversation : json) : Py.exn + json :=
  match data with
  | JDict fields =>
      match Py.getitem fields "conversations" with
      | inl e => inl e
      | inr (JList items) =>
          inr (JDict (dict_set "conversations"
                        (JList (items ++ [conversation])) fields))
      | inr _ => inl Py.AttributeError
      end
  | _ => inl Py.TypeError
  end.

Definition conversation_record (user response severity timestamp : string)
  : json :=
  JDict [ ("user", JStr user);
          ("response", JStr response);
          ("severity", JStr severity);
          ("timestamp", JStr timestamp) ].

(** The body of the [try] of [save_conversation]. *)
Definition save_conversation_body (user_input ai_response severity : string)
  : M unit :=
  data <- load_conversations ;;
  now <- datetime_now_isoformat ;;
  let conversation := conversation_record user_input ai_response severity now in
  data' <- lift (append_conversation data conversation) ;;
  json_dump_file data'.

(** [save_conversation(user_input, ai_response, severity)] *)
Definition save_conversation (user_input ai_response severity : string)
  : M unit :=
  try_except (save_conversation_body user_input ai_response severity)
    (fun e => print (ErrorSavingConversation e)).

(** ** The handlers *)

Record SymptomRequest : Type := { symptoms : string }.

Record DiagnosisResponse : Type := {
  advice : string;
  severity : string;
  timestamp : string
}.

(** The result of a handler that did not return: [HTTPException]. *)
Definition HTTPException (status_code : nat) : Py.exn := Py.HTTPError status_code.

Definition model_serious_keywords : list string :=
  ["doctor"; "emergency"; "hospital"; "serious"; "severe"; "immediate";
   "urgent"; "medical attention"; "911"; "seek care"].

Definition disclaimer : string :=
  nl ++ nl ++ "⚠️ Disclaimer: This advice is for informational purposes only and does not replace professional medical consultation. Please consult a qualified healthcare provider for proper diagnosis and treatment.".

(** [f"Symptoms: {request.symptoms}"], the user message sent to the model. *)
Definition user_message (request : SymptomRequest) : string :=
  "Symptoms: " ++ symptoms request.

(** ["serious" if any(keyword in ai_response.lower() for keyword in
    serious_keywords) else "mild"] *)
Definition severity_of_reply (ai_response : string) : string :=
  if Py.any_in model_serious_keywords (Py.lower_full ai_response)
  then "serious" else "mild".

(** The [try] around the model call: the stripped content and the severity
    read off it. *)
Definition ask_model (create : string -> Py.exn + string)
    (request : SymptomRequest) : M (string * string) :=
  content <- lift (create (user_message request)) ;;
  let ai_response := Py.strip content in
  ret (ai_response, severity_of_reply ai_response).

(** The [if client: ... else: ...] of [diagnose_symptoms]. *)
Definition answer (request : SymptomRequest) : M (string * string) :=
  fun w =>
    match client w with
    | Some create =>
        try_except (ask_model create request)
          (fun openai_error =>
             print (OpenAIAPIError openai_error) ;;;
             lift (get_fallback_response (symptoms request))) w
    | None => lift (get_fallback_response (symptoms request)) w
    end.

(** [POST /diagnose] *)
Definition diagnose_symptoms (request : SymptomRequest) : M DiagnosisResponse :=
  try_except
    (r <- answer request ;;
     let ai_response := fst r ++ disclaimer in
     let severity := snd r in
     save_conversation (symptoms request) ai_response severity ;;;
     now <- datetime_now_isoformat ;;
     ret {| advice := ai_response; severity := severity; timestamp := now |})
    (fun e =>
       print (ErrorInDiagnoseSymptoms e) ;;;
       raise (HTTPException 500)).

(** [GET /history] *)
Definition get_conversation_history : M json :=
  try_except load_conversations
    (fun e =>
       print (ErrorGettingHistory e) ;;;
       raise (HTTPException 500)).

(** What [load_conversations] returns on a file. *)
Definition document_of (f : file_state) : json :=
  match f with
  | Holds doc => doc
  | Unreadable | Missing => default_document
  end.

(** The entries under "conversations" of the document of a file. *)
Definition conversations_of (f : file_state) : list json :=
  match document_of f with
  | JDict fields =>
      match Py.dict_get "conversations" fields with
      | Some (JList items) => items
      | _ => []
      end
  | _ => []
  end.

(** The three ways [answer] runs: the model replied, the model call raised,
    there is no client. *)
Inductive answered (request : SymptomRequest) (w : World)
  : string * string -> World -> Prop :=
  | by_model create content :
      client w = Some create ->
      create (user_message request) = inr content ->
      answered request w
        (Py.strip content, severity_of_reply (Py.strip content)) w
  | by_fallback_after_error create e text sev :
      client w = Some create ->
      create (user_message request) = inl e ->
      get_fallback_response (symptoms request) = inr (text, sev) ->
      answered request w (text, sev)
        (set_stdout (stdout w ++ [OpenAIAPIError e]) w)
  | by_fallback_without_client text sev :
      client w = None ->
      get_fallback_response (symptoms request) = inr (text, sev) ->
      answered request w (text, sev) w.

(** [client is not None] *)
Definition client_is_not_None (w : World) : bool :=
  match client w with
  | Some _ => true
  | None => false
  end.

(** [GET /] *)
Definition root : M json :=
  fun w =>
    (inr (JDict [ ("message", JStr "Healthcare Chatbot API is running");
                  ("version", JStr "1.0.0");
                  ("endpoints", JList [JStr "/diagnose"; JStr "/history"]);
                  ("openai_available", JBool (client_is_not_None w)) ]),
     w).

(** [GET /health] *)
Definition health_check : M json :=
  now <- datetime_now_isoformat ;;
  fun w =>
    bind os_path_exists
      (fun there =>
         ret (JDict [ ("status", JStr "healthy");
                      ("timestamp", JStr now);
                      ("openai_configured", JBool (client_is_not_None w));
                      ("conversations_file_exists", JBool there) ])) w.

(** The handlers hold no [await]: the event loop runs each request to its
    end before it starts the next.  [diagnose_all] is a run of
    [POST /diagnose] requests, in the order they are served. *)
Fixpoint diagnose_all (requests : list SymptomRequest) (w : World)
  : list (Py.exn + DiagnosisResponse) * World :=
  match requests with
  | [] => ([], w)
  | request :: rest =>
      let (r, w1) := diagnose_symptoms request w in
      let (rs, w2) := diagnose_all rest w1 in
      (r :: rs, w2)
  end.

(** The keywords whose tests cannot tell [Py.lower] from [Py.lower_full]:
    ASCII throughout, no k, and no i at the end. *)
Fixpoint plain_keyword (kw : string) : bool :=
  match kw with
  | EmptyString => true
  | String c rest =>
      (N_of_ascii c <? 128)%N && negb (Ascii.eqb c "k") &&
      match rest with
      | EmptyString => negb (Ascii.eqb c "i")
      | String _ _ => plain_keyword rest
      end
  end.

(** The texts that are tokens of [tokens] put one after the other. *)
Inductive made_of (tokens : list string) : string -> Prop :=
  | made_empty : made_of tokens EmptyString
  | made_more (t s : string) :
      In t tokens -> made_of tokens s -> made_of tokens (t ++ s).

(** The texts made of whitespace only: code points that [str.strip]
    removes, one after the other. *)
Definition blank (s : string) : Prop := made_of Py.whitespace s.

(** The bytes found in whitespace: the ASCII controls and the space, and
    the bytes of non-ASCII code points. *)
Definition space_byte (c : ascii) : bool :=
  ((N_of_ascii c <=? 32) || (128 <=? N_of_ascii c))%N.



(** The keywords that end with a visible ASCII character. *)
Fixpoint tail_clean (kw : string) : bool :=
  match kw with
  | EmptyString => false
  | String c EmptyString => negb (space_byte c)
  | String _ rest => tail_clean rest
  end.

(** How [Py.lower_full] starts, next to [Py.lower]. *)
Inductive lowered : string -> string -> string -> Prop :=
  | lowered_empty : lowered EmptyString EmptyString EmptyString
  | lowered_kelvin r :
      lowered (Py.KELVIN_SIGN ++ r)
        (String "k" (Py.lower_full r)) (Py.KELVIN_SIGN ++ Py.lower r)
  | lowered_dotted r :
      lowered (Py.CAPITAL_I_WITH_DOT ++ r)
        (String "i" (Py.COMBINING_DOT ++ Py.lower_full r))
        (Py.CAPITAL_I_WITH_DOT ++ Py.lower r)
  | lowered_byte c r :
      lowered (String c r)
        (String (Py.lower_char c) (Py.lower_full r))
        (String (Py.lower_char c) (Py.lower r)).

(** A log file that [save_conversation] can extend: it holds an object
    with a list under "conversations". *)
Definition well_formed_log (f : file_state) : Prop :=
  exists fields items,
    f = Holds (JDict fields) /\
    Py.dict_get "conversations" fields = Some (JList items).

(** A world whose log [save_conversation] can extend. *)
Definition extendable (w : World) (fields : list (string * json))
    (items : list json) : Prop :=
  disk w = Writable /\
  document_of (conv_file w) = JDict fields /\
  Py.dict_get "conversations" fields = Some (JList items).

(** How a response and the entry logged for it belong together. *)
Definition logged_as (served : SymptomRequest * (Py.exn + DiagnosisResponse))
    (entry : json) : Prop :=
  exists r ts,
    snd served = inr r /\
    entry = conversation_record (symptoms (fst served)) (advice r)
              (severity r) ts.

(** ** Sample worlds and requests *)

Definition sample_clock (n : nat) : string :=
  "2024-01-01T00:00:0" ++ String (ascii_of_nat (48 + n)) EmptyString.

Definition fever_request : SymptomRequest := {| symptoms := "I have a Fever" |}.

Definition chest_request : SymptomRequest :=
  {| symptoms := "Mild CHEST pain and short of Breath" |}.

(** No model client, no log file yet, a disk that can be written. *)
Definition fresh_world : World :=
  mkWorld Missing Writable None sample_clock 0 [].

Definition old_entry : json :=
  conversation_record "cough" (mild_cold ++ disclaimer) "mild" "2023-12-31T23:59:59".

Definition one_entry_document : json :=
  JDict [("conversations", JList [old_entry])].

(** A log with one entry on a disk that refuses writes. *)
Definition read_only_world : World :=
  mkWorld (Holds one_entry_document) Refusing None sample_clock 0 [].

(** A log with one entry on a disk that can be written. *)
Definition logged_world : World :=
  mkWorld (Holds one_entry_document) Writable None sample_clock 0 [].

(** A client whose call raises. *)
Definition failing_client_world : World :=
  mkWorld Missing Writable (Some (fun _ => inl Py.APIError)) sample_clock 0 [].

(** A client that answers with a fixed reply. *)
Definition model_reply : string := "  Rest and drink water. " ++ nl.

Definition answering_client_world : World :=
  mkWorld Missing Writable (Some (fun _ => inr model_reply)) sample_clock 0 [].

(** A log file that cannot be parsed, on a disk that can be written. *)
Definition corrupt_world : World :=
  mkWorld Unreadable Writable None sample_clock 0 [].

(** A log file that holds a JSON list instead of an object. *)
Definition misshapen_world : World :=
  mkWorld (Holds (JList [])) Writable None sample_clock 0 [].

(** A client that answers with blanks only: a space, U+00A0, U+3000 and a
    line feed. *)
Definition blank_reply : string :=
  " " ++ Py.utf8 0xA0 ++ Py.utf8 0x3000 ++ nl.

Definition blank_client_world : World :=
  mkWorld Missing Writable (Some (fun _ => inr blank_reply)) sample_clock 0 [].

(** * Properties *)

(** Case analysis on every [if] of the goal. *)
Ltac split_ifs :=
  repeat match goal with
    | |- context [if ?b then _ else _] => destruct b eqn:?
    end.

(** ** Strings *)

Lemma prefix_true_iff (kw s : string) :
  String.prefix kw s = true <-> exists post, s = kw ++ post.
Proof.
  revert s; induction kw as [|c kw IH]; intros s; simpl.
  - split; [intros _; exists s; reflexivity | intros _; destruct s; reflexivity].
  - destruct s as [|d s]; simpl.
    + split; [discriminate | intros [post H]; discriminate].
    + destruct (Ascii.ascii_dec c d) as [->|Hne].
      * rewrite IH. split; intros [post H]; exists post.
        -- now rewrite H.
        -- now inversion H.
      * split; [discriminate | intros [post H]; inversion H; congruence].
Qed.

(** [Py.contains] is the substring relation. *)
Lemma contains_true_iff (kw s : string) :
  Py.contains kw s = true <-> exists pre post, s = pre ++ kw ++ post.
Proof.
  induction s as [|c s IH]; cbn [Py.contains].
  - rewrite orb_false_r, prefix_true_iff. split.
    + intros [post H]. exists EmptyString, post. exact H.
    + intros [pre [post H]]. destruct pre; [exists post; exact H|discriminate].
  - rewrite orb_true_iff, prefix_true_iff, IH. split.
    + intros [[post H] | [pre [post H]]].
      * exists EmptyString, post. exact H.
      * exists (String c pre), post. simpl. now rewrite H.
    + intros [pre [post H]]. destruct pre as [|d pre]; simpl in H.
      * left. exists post. exact H.
      * right. exists pre, post. now inversion H.
Qed.

Lemma lower_char_idempotent (c : ascii) :
  Py.lower_char (Py.lower_char c) = Py.lower_char c.
Proof. destruct c as [[] [] [] [] [] [] [] []]; reflexivity. Qed.

Lemma lower_idempotent (s : string) : Py.lower (Py.lower s) = Py.lower s.
Proof.
  induction s as [|c s IH]; simpl; [reflexivity|].
  now rewrite lower_char_idempotent, IH.
Qed.

Lemma any_in_true_iff (kws : list string) (s : string) :
  Py.any_in kws s = true <->
  exists kw, In kw kws /\ Py.contains kw s = true.
Proof. unfold Py.any_in. apply existsb_exists. Qed.

Lemma any_in_false_iff (kws : list string) (s : string) :
  Py.any_in kws s = false <->
  forall kw, In kw kws -> Py.contains kw s = false.
Proof.
  split.
  - intros H kw Hin. destruct (Py.contains kw s) eqn:E; [|reflexivity].
    rewrite <- H. symmetry. apply any_in_true_iff. now exists kw.
  - intros H. destruct (Py.any_in kws s) eqn:E; [|reflexivity].
    apply any_in_true_iff in E. destruct E as [kw [Hin Hc]].
    rewrite (H kw Hin) in Hc. discriminate.
Qed.

(** ** The fallback table *)

Lemma canned_serious_chest :
  canned "serious" "chest" = inr (serious_chest, "serious").
Proof. reflexivity. Qed.

Lemma canned_serious_breathing :
  canned "serious" "breathing" = inr (serious_breathing, "serious").
Proof. reflexivity. Qed.

Lemma canned_serious_severe :
  canned "serious" "severe" = inr (serious_severe, "serious").
Proof. reflexivity. Qed.

Lemma canned_serious_default :
  canned "serious" "default" = inr (serious_default, "serious").
Proof. reflexivity. Qed.

Lemma canned_mild_headache :
  canned "mild" "headache" = inr (mild_headache, "mild").
Proof. reflexivity. Qed.

Lemma canned_mild_cold :
  canned "mild" "cold" = inr (mild_cold, "mild").
Proof. reflexivity. Qed.

Lemma canned_mild_fever :
  canned "mild" "fever" = inr (mild_fever, "mild").
Proof. reflexivity. Qed.

Lemma canned_mild_default :
  canned "mild" "default" = inr (mild_default, "mild").
Proof. reflexivity. Qed.

Create Rewrite HintDb canned.
#[export] Hint Rewrite canned_serious_chest canned_serious_breathing
  canned_serious_severe canned_serious_default canned_mild_headache
  canned_mild_cold canned_mild_fever canned_mild_default : canned.

(** Every call of the classifier returns a row of the table. *)
Lemma get_fallback_response_row (s : string) :
  exists sev key text,
    In (sev, key, text) table_rows /\
    get_fallback_response s = inr (text, sev).
Proof.
  unfold get_fallback_response. split_ifs; autorewrite with canned;
    do 3 eexists; (split; [|reflexivity]); unfold table_rows; simpl; tauto.
Qed.

Lemma canned_texts_are_eight : length canned_texts = 8.
Proof. reflexivity. Qed.

Lemma row_is_lookup (sev key text : string) :
  In (sev, key, text) table_rows ->
  exists sub,
    Py.dict_get sev FALLBACK_RESPONSES = Some sub /\
    Py.dict_get key sub = Some text /\
    In key (Py.keys sub) /\
    In text canned_texts.
Proof.
  unfold table_rows; simpl.
  intros H; repeat destruct H as [H|H]; try contradiction;
    injection H as <- <- <-; eexists; (split; [reflexivity|]);
    (split; [reflexivity|]); unfold canned_texts; simpl; tauto.
Qed.

Lemma row_severity (sev key text : string) :
  In (sev, key, text) table_rows -> sev = "mild" \/ sev = "serious".
Proof.
  unfold table_rows; simpl.
  intros H; repeat destruct H as [H|H]; try contradiction;
    injection H as <- <- <-; auto.
Qed.

(** The classifier never raises, and its severity is one of the two. *)
Lemma get_fallback_response_total (s : string) :
  exists text sev,
    get_fallback_response s = inr (text, sev) /\
    (sev = "mild" \/ sev = "serious").
Proof.
  destruct (get_fallback_response_row s) as (sev & key & text & Hin & E).
  exists text, sev. split; [exact E | exact (row_severity _ _ _ Hin)].
Qed.

(** The serious branch is taken as soon as one serious keyword occurs. *)
Lemma serious_branch (s : string) :
  Py.any_in serious_keywords (Py.lower s) = true ->
  get_fallback_response s =
    if Py.contains "chest" (Py.lower s) then inr (serious_chest, "serious")
    else if Py.contains "breath" (Py.lower s)
         then inr (serious_breathing, "serious")
         else inr (serious_severe, "serious").
Proof.
  intros H. unfold get_fallback_response. rewrite H.
  now autorewrite with canned.
Qed.

(** ** The handlers *)

Lemma severity_of_reply_cases (reply : string) :
  severity_of_reply reply = "mild" \/ severity_of_reply reply = "serious".
Proof. unfold severity_of_reply. split_ifs; auto. Qed.

Lemma answer_answered (request : SymptomRequest) (w : World) :
  exists r w1, answer request w = (inr r, w1) /\ answered request w r w1.
Proof.
  destruct (get_fallback_response_total (symptoms request))
    as (text & sev & E & _).
  unfold answer. destruct (client w) as [create|] eqn:Hc.
  - unfold try_except, ask_model, bind, lift, ret, print.
    destruct (create (user_message request)) as [e|content] eqn:Hm.
    + rewrite E. do 2 eexists. split; [reflexivity|].
      eapply by_fallback_after_error; eauto.
    + do 2 eexists. split; [reflexivity|]. eapply by_model; eauto.
  - unfold lift. rewrite E. do 2 eexists. split; [reflexivity|].
    now apply by_fallback_without_client.
Qed.

(** [answer] touches nothing but the printed lines. *)
Lemma answered_frame request w r w1 :
  answered request w r w1 ->
  conv_file w1 = conv_file w /\ disk w1 = disk w /\
  clock w1 = clock w /\ ticks w1 = ticks w /\ client w1 = client w.
Proof. intros H; destruct H; simpl; auto. Qed.

Lemma answered_severity request w r w1 :
  answered request w r w1 -> snd r = "mild" \/ snd r = "serious".
Proof.
  intros H; destruct H; simpl.
  - apply severity_of_reply_cases.
  - destruct (get_fallback_response_total (symptoms request))
      as (t & s & E & Hs). congruence.
  - destruct (get_fallback_response_total (symptoms request))
      as (t & s & E & Hs). congruence.
Qed.

(** [load_conversations] never raises and leaves the file as it is. *)
Lemma load_conversations_run (w : World) :
  load_conversations w =
    match conv_file w with
    | Holds doc => (inr doc, w)
    | Unreadable =>
        (inr default_document,
         set_stdout (stdout w ++ [ErrorLoadingConversations]) w)
    | Missing => (inr default_document, w)
    end.
Proof.
  unfold load_conversations, bind, os_path_exists, try_except, json_load_file.
  destruct (conv_file w) eqn:E; try reflexivity; rewrite E; reflexivity.
Qed.

(** [save_conversation] never raises. *)
Lemma save_conversation_total (u a s : string) (w : World) :
  exists w', save_conversation u a s w = (inr tt, w').
Proof.
  unfold save_conversation, try_except.
  destruct (save_conversation_body u a s w) as [[e|[]] w'].
  - unfold print. eexists; reflexivity.
  - eexists; reflexivity.
Qed.

(** [diagnose_symptoms] after [answer] and [save_conversation]. *)
Lemma diagnose_symptoms_run request w text sev w1 w2 :
  answer request w = (inr (text, sev), w1) ->
  save_conversation (symptoms request) (text ++ disclaimer) sev w1
    = (inr tt, w2) ->
  diagnose_symptoms request w =
    (inr {| advice := text ++ disclaimer; severity := sev;
            timestamp := clock w2 (ticks w2) |},
     set_ticks (S (ticks w2)) w2).
Proof.
  intros Ha Hs. unfold diagnose_symptoms, try_except, bind.
  rewrite Ha. cbn [fst snd]. rewrite Hs. reflexivity.
Qed.

(** [POST /diagnose] always returns a response, built from [answer]. *)
Lemma diagnose_symptoms_total (request : SymptomRequest) (w : World) :
  exists text sev w1 w2 ts w',
    answered request w (text, sev) w1 /\
    save_conversation (symptoms request) (text ++ disclaimer) sev w1
      = (inr tt, w2) /\
    diagnose_symptoms request w =
      (inr {| advice := text ++ disclaimer; severity := sev;
              timestamp := ts |}, w') /\
    conv_file w' = conv_file w2.
Proof.
  destruct (answer_answered request w) as ([text sev] & w1 & Ha & Hw).
  destruct (save_conversation_total (symptoms request) (text ++ disclaimer)
              sev w1) as [w2 Hs].
  exists text, sev, w1, w2. do 2 eexists.
  split; [exact Hw|]. split; [exact Hs|].
  split; [exact (diagnose_symptoms_run _ _ _ _ _ _ Ha Hs) | reflexivity].
Qed.

(** ** The classifier *)

(** C1: the severity is always one of the two strings "mild" and "serious":
    [get_fallback_response] returns such a severity for every symptoms
    string, and [POST /diagnose] answers every request, in every world, with
    a response whose severity is one of the two. *)
Theorem severity_is_mild_or_serious :
  (forall s : string,
     exists text sev,
       get_fallback_response s = inr (text, sev) /\
       (sev = "mild" \/ sev = "serious")) /\
  (forall (request : SymptomRequest) (w : World),
     exists r w',
       diagnose_symptoms request w = (inr r, w') /\
       (severity r = "mild" \/ severity r = "serious")).
Proof.
  split.
  - exact get_fallback_response_total.
  - intros request w.
    destruct (diagnose_symptoms_total request w)
      as (text & sev & w1 & w2 & ts & w' & Ha & _ & Hd & _).
    do 2 eexists. split; [exact Hd|].
    exact (answered_severity _ _ _ _ Ha).
Qed.

(** C4: for every symptoms string [get_fallback_response] returns a pair
    (text, severity) where text is [FALLBACK_RESPONSES[severity][k]] for a
    key [k] of that severity's sub-table, hence one of the eight canned
    texts of the table. *)
Theorem fallback_text_comes_from_table (s : string) :
  exists text sev sub k,
    get_fallback_response s = inr (text, sev) /\
    Py.dict_get sev FALLBACK_RESPONSES = Some sub /\
    In k (Py.keys sub) /\
    Py.dict_get k sub = Some text /\
    In text canned_texts /\
    length canned_texts = 8.
Proof.
  destruct (get_fallback_response_row s) as (sev & key & text & Hin & E).
  destruct (row_is_lookup _ _ _ Hin) as (sub & Hsub & Hkey & Hk & Htext).
  exists text, sev, sub, key.
  repeat split; assumption || reflexivity.
Qed.

(** C6: the fallback classifier is case-insensitive: it gives the same
    result on a string and on its lowercased form, and two strings with the
    same lowercased form get the same result. *)
Theorem fallback_is_case_insensitive :
  (forall s : string,
     get_fallback_response (Py.lower s) = get_fallback_response s) /\
  (forall s t : string,
     Py.lower s = Py.lower t ->
     get_fallback_response s = get_fallback_response t).
Proof.
  split.
  - intros s. unfold get_fallback_response.
    now rewrite lower_idempotent.
  - intros s t H. unfold get_fallback_response. now rewrite H.
Qed.

Lemma fallback_is_case_insensitive_witness :
  Py.lower "I have a Fever" = Py.lower "i HAVE a fever" /\
  get_fallback_response "I have a Fever"
    = get_fallback_response "i HAVE a fever".
Proof.
  split; [reflexivity|].
  apply (proj2 fallback_is_case_insensitive). reflexivity.
Defined.

(** C8: serious keywords take precedence: when the lowercased symptoms
    contain any serious keyword the severity is "serious", whatever mild
    indicator the string also holds; and when "chest" occurs the chest text
    is returned, also when "breath" (hence "breathing") occurs as well. *)
Theorem serious_keywords_take_precedence (s : string) :
  (forall kw,
     In kw serious_keywords ->
     Py.contains kw (Py.lower s) = true ->
     exists text, get_fallback_response s = inr (text, "serious")) /\
  (Py.contains "chest" (Py.lower s) = true ->
   get_fallback_response s = inr (serious_chest, "serious")).
Proof.
  split.
  - intros kw Hin Hc.
    assert (H : Py.any_in serious_keywords (Py.lower s) = true)
      by (apply any_in_true_iff; now exists kw).
    rewrite (serious_branch s H). split_ifs; eexists; reflexivity.
  - intros Hc.
    assert (H : Py.any_in serious_keywords (Py.lower s) = true).
    { apply any_in_true_iff. exists "chest". split; [simpl; tauto | exact Hc]. }
    rewrite (serious_branch s H), Hc. reflexivity.
Qed.

Lemma serious_keywords_take_precedence_witness :
  (In "breath" serious_keywords /\
   Py.contains "breath" (Py.lower (symptoms chest_request)) = true /\
   Py.contains "mild" (Py.lower (symptoms chest_request)) = true /\
   exists text,
     get_fallback_response (symptoms chest_request) = inr (text, "serious")) /\
  (Py.contains "chest" (Py.lower (symptoms chest_request)) = true /\
   get_fallback_response (symptoms chest_request)
     = inr (serious_chest, "serious")).
Proof.
  split.
  - split; [simpl; tauto|]. split; [reflexivity|]. split; [reflexivity|].
    apply (proj1 (serious_keywords_take_precedence (symptoms chest_request))
             "breath"); solve [simpl; tauto | reflexivity].
  - split; [reflexivity|].
    apply (proj2 (serious_keywords_take_precedence (symptoms chest_request))).
    reflexivity.
Defined.

(** C9: when the lowercased symptoms contain "fever" but no serious
    keyword, none of "headache", "head", "cold", "cough", "runny nose" and
    no mild indicator, the result is the serious default text with severity
    "serious"; and the mild fever text is returned only when both "fever"
    and "mild" occur. *)
Theorem fever_alone_gets_serious_default (s : string) :
  (Py.contains "fever" (Py.lower s) = true ->
   (forall kw, In kw serious_keywords ->
               Py.contains kw (Py.lower s) = false) ->
   (forall kw, In kw ["headache"; "head"; "cold"; "cough"; "runny nose"] ->
               Py.contains kw (Py.lower s) = false) ->
   (forall kw, In kw mild_indicators ->
               Py.contains kw (Py.lower s) = false) ->
   get_fallback_response s = inr (serious_default, "serious")) /\
  (forall sev,
     get_fallback_response s = inr (mild_fever, sev) ->
     Py.contains "fever" (Py.lower s) = true /\
     Py.contains "mild" (Py.lower s) = true).
Proof.
  split.
  - intros Hfever Hserious Hother Hmild.
    assert (Hm : Py.contains "mild" (Py.lower s) = false)
      by (apply Hmild; simpl; tauto).
    apply any_in_false_iff in Hserious. apply any_in_false_iff in Hmild.
    unfold get_fallback_response.
    rewrite Hserious, Hmild.
    rewrite !Hother by (simpl; tauto).
    rewrite Hfever, Hm. reflexivity.
  - intros sev. unfold get_fallback_response.
    split_ifs; autorewrite with canned; intros H;
      try (exfalso; injection H as H _; vm_compute in H; discriminate).
    now apply andb_true_iff.
Qed.

Lemma fever_alone_gets_serious_default_witness :
  Py.contains "fever" (Py.lower (symptoms fever_request)) = true /\
  Py.any_in serious_keywords (Py.lower (symptoms fever_request)) = false /\
  Py.any_in ["headache"; "head"; "cold"; "cough"; "runny nose"]
    (Py.lower (symptoms fever_request)) = false /\
  Py.any_in mild_indicators (Py.lower (symptoms fever_request)) = false /\
  get_fallback_response (symptoms fever_request)
    = inr (serious_default, "serious").
Proof.
  repeat (split; [reflexivity|]).
  apply (proj1 (fever_alone_gets_serious_default (symptoms fever_request)));
    [reflexivity | | | ]; apply any_in_false_iff; reflexivity.
Defined.

(** ** The conversation log *)

Lemma load_conversations_returns (w : World) :
  exists w',
    load_conversations w = (inr (document_of (conv_file w)), w') /\
    conv_file w' = conv_file w /\ disk w' = disk w /\
    clock w' = clock w /\ ticks w' = ticks w.
Proof.
  rewrite load_conversations_run.
  destruct (conv_file w) eqn:E; eexists; (split; [reflexivity|]);
    simpl; auto.
Qed.

Lemma dict_get_dict_set_same (k : string) (v v0 : json) fields :
  Py.dict_get k fields = Some v0 ->
  Py.dict_get k (dict_set k v fields) = Some v.
Proof.
  induction fields as [|[k' v'] rest IH]; simpl; [discriminate|].
  destruct (String.eqb k k') eqn:E; simpl; rewrite E; auto.
Qed.

Lemma dict_get_dict_set_other (k k0 : string) (v : json) fields :
  k0 <> k ->
  Py.dict_get k0 (dict_set k v fields) = Py.dict_get k0 fields.
Proof.
  intros Hne. induction fields as [|[k' v'] rest IH]; simpl; [reflexivity|].
  destruct (String.eqb k k') eqn:E; simpl.
  - apply String.eqb_eq in E. subst k'.
    apply String.eqb_neq in Hne. now rewrite Hne.
  - now rewrite IH.
Qed.

(** [save_conversation] on a writable disk and a well-shaped document. *)
Lemma save_conversation_appends (u a s : string) (w : World) fields items :
  disk w = Writable ->
  document_of (conv_file w) = JDict fields ->
  Py.dict_get "conversations" fields = Some (JList items) ->
  exists w',
    save_conversation u a s w = (inr tt, w') /\
    conv_file w' =
      Holds (JDict (dict_set "conversations"
                      (JList (items ++
                                [conversation_record u a s (clock w (ticks w))]))
                      fields)).
Proof.
  intros Hdisk Hdoc Hconv.
  destruct (load_conversations_returns w) as (w1 & Hl & Hf & Hd & Hc & Ht).
  unfold save_conversation, try_except, save_conversation_body, bind.
  rewrite Hl, Hdoc. unfold datetime_now_isoformat, lift, append_conversation,
    Py.getitem. rewrite Hconv. unfold json_dump_file. cbn.
  rewrite Hd, Hdisk, Hc, Ht. eexists. split; reflexivity.
Qed.

(** [save_conversation] leaves the file alone when its body raises. *)
Lemma save_conversation_swallows (u a s : string) (w w2 : World) e :
  save_conversation_body u a s w = (inl e, w2) ->
  save_conversation u a s w
    = (inr tt, set_stdout (stdout w2 ++ [ErrorSavingConversation e]) w2).
Proof.
  intros H. unfold save_conversation, try_except. rewrite H. reflexivity.
Qed.

(** ** The /diagnose and /history handlers *)

(** C2: [POST /diagnose] answers every request, and the advice it returns
    is the response text with the fixed disclaimer appended at its end, on
    both paths: when the model call returns, the text is the stripped content
    of the reply; when there is no client or the call raises, it is the text
    of [get_fallback_response].  The disclaimer starts with two line feeds
    and "⚠️ Disclaimer:". *)
Theorem advice_ends_with_disclaimer (request : SymptomRequest) (w : World) :
  String.prefix (nl ++ nl ++ "⚠️ Disclaimer:") disclaimer = true /\
  exists r w',
    diagnose_symptoms request w = (inr r, w') /\
    ((exists create content,
        client w = Some create /\
        create (user_message request) = inr content /\
        advice r = Py.strip content ++ disclaimer) \/
     (exists text sev,
        (client w = None \/
         exists create e,
           client w = Some create /\
           create (user_message request) = inl e) /\
        get_fallback_response (symptoms request) = inr (text, sev) /\
        advice r = text ++ disclaimer)).
Proof.
  split; [reflexivity|].
  destruct (diagnose_symptoms_total request w)
    as (text & sev & w1 & w2 & ts & w' & Ha & _ & Hd & _).
  do 2 eexists. split; [exact Hd|]. cbn [advice].
  inversion Ha; subst.
  - left. eauto.
  - right. exists text, sev. split; [right; eauto | auto].
  - right. exists text, sev. split; [left; assumption | auto].
Qed.

(** C3: when there is no client, or the model call raises, the advice
    (before the disclaimer) and the severity of [POST /diagnose] are those
    of [get_fallback_response] on the request's symptoms; when the model
    call returns, they are the stripped reply and the severity read off it,
    so the fallback classifier plays no part. *)
Theorem fallback_exactly_when_model_unavailable
    (request : SymptomRequest) (w : World) :
  exists r w',
    diagnose_symptoms request w = (inr r, w') /\
    ((client w = None \/
      (exists create e,
         client w = Some create /\ create (user_message request) = inl e) ->
      exists text,
        get_fallback_response (symptoms request) = inr (text, severity r) /\
        advice r = text ++ disclaimer) /\
     (forall create content,
        client w = Some create ->
        create (user_message request) = inr content ->
        advice r = Py.strip content ++ disclaimer /\
        severity r = severity_of_reply (Py.strip content))).
Proof.
  destruct (diagnose_symptoms_total request w)
    as (text & sev & w1 & w2 & ts & w' & Ha & _ & Hd & _).
  do 2 eexists. split; [exact Hd|]. cbn [advice severity].
  inversion Ha; subst; split.
  - intros [Hn | (c & e & Hc & He)]; congruence.
  - intros c content' Hc Hm. split; congruence.
  - intros _. eauto.
  - intros c content' Hc Hm. congruence.
  - intros _. eauto.
  - intros c content' Hc Hm. congruence.
Qed.

Lemma fallback_exactly_when_model_unavailable_witness :
  (exists r text,
     client fresh_world = None /\
     fst (diagnose_symptoms fever_request fresh_world) = inr r /\
     get_fallback_response (symptoms fever_request) = inr (text, severity r) /\
     advice r = text ++ disclaimer) /\
  (exists r text,
     fst (diagnose_symptoms fever_request failing_client_world) = inr r /\
     get_fallback_response (symptoms fever_request) = inr (text, severity r) /\
     advice r = text ++ disclaimer) /\
  (exists r,
     fst (diagnose_symptoms fever_request answering_client_world) = inr r /\
     advice r = Py.strip model_reply ++ disclaimer /\
     severity r = severity_of_reply (Py.strip model_reply)).
Proof.
  split; [|split].
  - destruct (fallback_exactly_when_model_unavailable fever_request fresh_world)
      as (r & w' & Hd & Hf & _).
    destruct (Hf (or_introl eq_refl)) as (text & Hg & Ha).
    exists r, text. rewrite Hd. auto.
  - destruct (fallback_exactly_when_model_unavailable fever_request
                failing_client_world) as (r & w' & Hd & Hf & _).
    destruct Hf as (text & Hg & Ha).
    { right. exists (fun _ => inl Py.APIError), Py.APIError. split; reflexivity. }
    exists r, text. rewrite Hd. auto.
  - destruct (fallback_exactly_when_model_unavailable fever_request
                answering_client_world) as (r & w' & Hd & _ & Hm).
    destruct (Hm (fun _ => inr model_reply) model_reply eq_refl eq_refl)
      as [Ha Hs].
    exists r. rewrite Hd. auto.
Defined.

(** C5, as stated, fails: on a disk that refuses writes the request is
    answered as usual, yet the log still holds its one old entry: no record
    was appended. *)
Lemma diagnose_without_new_record :
  exists r w',
    diagnose_symptoms fever_request read_only_world = (inr r, w') /\
    conv_file w' = conv_file read_only_world /\
    conversations_of (conv_file w') = [old_entry] /\
    forall record,
      conversations_of (conv_file w')
        <> (conversations_of (conv_file read_only_world) ++ [record])%list.
Proof.
  destruct (diagnose_symptoms fever_request read_only_world) as [[e|r] w']
    eqn:E; vm_compute in E; [discriminate|].
  injection E as <- <-.
  do 2 eexists. split; [reflexivity|]. split; [reflexivity|].
  split; [reflexivity|].
  intros record H. apply (f_equal (@length json)) in H. discriminate.
Qed.

(** One request when the save goes through. *)
Lemma diagnose_symptoms_saves
    (request : SymptomRequest) (w : World) fields items :
  disk w = Writable ->
  document_of (conv_file w) = JDict fields ->
  Py.dict_get "conversations" fields = Some (JList items) ->
  exists r w' fields',
    diagnose_symptoms request w = (inr r, w') /\
    conv_file w' = Holds (JDict fields') /\
    fields' =
      dict_set "conversations"
        (JList (items ++
                  [conversation_record (symptoms request) (advice r)
                     (severity r) (clock w (ticks w))]))
        fields /\
    conversations_of (conv_file w') =
      (conversations_of (conv_file w) ++
         [conversation_record (symptoms request) (advice r) (severity r)
            (clock w (ticks w))])%list /\
    (forall k, k <> "conversations" ->
               Py.dict_get k fields' = Py.dict_get k fields).
Proof.
  intros Hdisk Hdoc Hconv.
  destruct (answer_answered request w) as ([text sev] & w1 & Ha & Hw).
  destruct (answered_frame _ _ _ _ Hw) as (Hf & Hd & Hc & Ht & _).
  destruct (save_conversation_appends (symptoms request) (text ++ disclaimer)
              sev w1 fields items) as (w2 & Hs & Hfile).
  { now rewrite Hd. }
  { now rewrite Hf. }
  { exact Hconv. }
  rewrite (diagnose_symptoms_run _ _ _ _ _ _ Ha Hs).
  do 3 eexists. split; [reflexivity|]. cbn [advice severity].
  rewrite Hc, Ht in Hfile.
  split; [exact Hfile|]. split; [reflexivity|]. split.
  - change (conv_file (set_ticks (S (ticks w2)) w2)) with (conv_file w2).
    rewrite Hfile. unfold conversations_of. rewrite Hdoc, Hconv.
    cbn [document_of].
    now rewrite (dict_get_dict_set_same _ _ _ _ Hconv).
  - intros k Hk. now apply dict_get_dict_set_other.
Qed.

(** What [append_conversation] accepts. *)
Lemma append_conversation_shape (doc conversation data : json) :
  append_conversation doc conversation = inr data ->
  exists fields items,
    doc = JDict fields /\
    Py.dict_get "conversations" fields = Some (JList items).
Proof.
  unfold append_conversation, Py.getitem.
  destruct doc as [| | | | | |fields]; try discriminate.
  destruct (Py.dict_get "conversations" fields) as [v|] eqn:E; [|discriminate].
  destruct v; try discriminate. intros _. eauto.
Qed.

(** The body of [save_conversation] raises in every other world, and then
    the file is as it was, or was emptied by the write that broke off. *)
Lemma save_conversation_body_fails (u a s : string) (w : World) :
  ~ (exists fields items, extendable w fields items) ->
  exists e w2,
    save_conversation_body u a s w = (inl e, w2) /\
    (conv_file w2 = conv_file w \/ conv_file w2 = Unreadable).
Proof.
  intros Hn.
  unfold save_conversation_body, bind.
  rewrite load_conversations_run.
  unfold datetime_now_isoformat, lift, json_dump_file.
  assert (Hd : conv_file w = Missing \/ conv_file w = Unreadable ->
               disk w <> Writable).
  { intros Hf Hd. apply Hn. exists [("conversations", JList [])], [].
    split; [exact Hd|]. split; [|reflexivity].
    destruct Hf as [-> | ->]; reflexivity. }
  destruct (conv_file w) as [| |doc] eqn:Ef;
    cbn [set_ticks set_stdout conv_file disk client clock ticks stdout].
  - cbn. destruct (disk w); [exfalso; apply Hd; auto| |];
      do 2 eexists; (split; [reflexivity|]); cbn; auto.
  - cbn. destruct (disk w); [exfalso; apply Hd; auto| |];
      do 2 eexists; (split; [reflexivity|]); cbn; auto.
  - match goal with
    | |- context [append_conversation ?d ?c] =>
        destruct (append_conversation d c) as [e|data'] eqn:Ea
    end.
    + do 2 eexists. split; [reflexivity|]. cbn. auto.
    + destruct (append_conversation_shape _ _ _ Ea)
        as (fields & items & -> & Hc).
      cbn. destruct (disk w) eqn:Edisk;
        [ exfalso; apply Hn; exists fields, items;
          split; [exact Edisk|]; split; [now rewrite Ef | exact Hc]
        | | ];
        do 2 eexists; (split; [reflexivity|]); cbn; auto.
Qed.

(** C5, amended: when the disk can be written and the document that
    [load_conversations] returns is an object whose "conversations" value is
    a list, [POST /diagnose] rewrites the file with that document in which
    exactly one record, made of the request's symptoms, the returned advice
    (disclaimer included), the returned severity and the time of saving,
    is appended after the entries already there; these and every other key
    of the document are kept as they were.  In every other world the save
    fails: the request is answered all the same, the error is printed, the
    file is left as it was (or emptied by a write that broke off) and no
    record is appended. *)
Theorem diagnose_appends_one_record (request : SymptomRequest) (w : World) :
  (forall fields items,
     disk w = Writable ->
     document_of (conv_file w) = JDict fields ->
     Py.dict_get "conversations" fields = Some (JList items) ->
     exists r w' fields',
       diagnose_symptoms request w = (inr r, w') /\
       conv_file w' = Holds (JDict fields') /\
       fields' =
         dict_set "conversations"
           (JList (items ++
                     [conversation_record (symptoms request) (advice r)
                        (severity r) (clock w (ticks w))]))
           fields /\
       conversations_of (conv_file w') =
         (conversations_of (conv_file w) ++
            [conversation_record (symptoms request) (advice r) (severity r)
               (clock w (ticks w))])%list /\
       (forall k, k <> "conversations" ->
                  Py.dict_get k fields' = Py.dict_get k fields)) /\
  (~ (disk w = Writable /\
      exists fields items,
        document_of (conv_file w) = JDict fields /\
        Py.dict_get "conversations" fields = Some (JList items)) ->
   exists r w' e,
     diagnose_symptoms request w = (inr r, w') /\
     In (ErrorSavingConversation e) (stdout w') /\
     (conv_file w' = conv_file w \/ conv_file w' = Unreadable) /\
     forall record,
       conversations_of (conv_file w')
         <> (conversations_of (conv_file w) ++ [record])%list).
Proof.
  split.
  - intros fields items. apply diagnose_symptoms_saves.
  - intros Hn.
    destruct (answer_answered request w) as ([text sev] & w1 & Ha & Hw).
    destruct (answered_frame _ _ _ _ Hw) as (Hf & Hd & _ & _ & _).
    destruct (save_conversation_body_fails (symptoms request)
                (text ++ disclaimer) sev w1) as (e & w2 & Hb & Hfile).
    { intros (fields & items & H1 & H2 & H3). apply Hn.
      rewrite <- Hd, <- Hf. split; [exact H1|]. eauto. }
    rewrite (diagnose_symptoms_run _ _ _ _ _ _ Ha
               (save_conversation_swallows _ _ _ _ _ _ Hb)).
    do 3 eexists. split; [reflexivity|]. cbn.
    split; [apply in_or_app; right; left; reflexivity|].
    rewrite Hf in Hfile. split; [exact Hfile|].
    intros record H. apply (f_equal (@length json)) in H.
    rewrite length_app in H. cbn in H.
    destruct Hfile as [E | E]; rewrite E in H; cbn in H; lia.
Qed.

Lemma diagnose_appends_one_record_witness :
  (disk logged_world = Writable /\
   exists r w',
     diagnose_symptoms fever_request logged_world = (inr r, w') /\
     conversations_of (conv_file w') =
       [old_entry;
        conversation_record (symptoms fever_request) (advice r) (severity r)
          (sample_clock 0)]) /\
  (disk read_only_world <> Writable /\
   exists r w',
     diagnose_symptoms fever_request read_only_world = (inr r, w') /\
     conversations_of (conv_file w') = [old_entry]).
Proof.
  split.
  - split; [reflexivity|].
    destruct (proj1 (diagnose_appends_one_record fever_request logged_world)
                [("conversations", JList [old_entry])] [old_entry]
                eq_refl eq_refl eq_refl)
      as (r & w' & fields' & Hd & _ & _ & Hc & _).
    exists r, w'. split; [exact Hd | exact Hc].
  - split; [discriminate|].
    destruct (proj2 (diagnose_appends_one_record fever_request
                       read_only_world))
      as (r & w' & e & Hd & _ & [Hf | Hf] & _).
    + intros [H _]. discriminate.
    + exists r, w'. split; [exact Hd|]. now rewrite Hf.
    + exfalso. revert Hd Hf. vm_compute. intros Hd Hf.
      injection Hd as _ <-. discriminate.
Defined.

(** C7: [GET /history] returns the document stored in the log file and
    leaves the file as it is; when the file is missing or cannot be read as
    JSON it returns the default document [{"conversations": []}] and does
    not fail. *)
Theorem history_returns_stored_document (w : World) :
  exists w',
    get_conversation_history w =
      (inr match conv_file w with
           | Holds doc => doc
           | Missing | Unreadable => JDict [("conversations", JList [])]
           end, w') /\
    conv_file w' = conv_file w.
Proof.
  unfold get_conversation_history, try_except.
  rewrite load_conversations_run.
  destruct (conv_file w) eqn:E; eexists; (split; [reflexivity|]);
    simpl; auto.
Qed.

(** C10: a failure to persist is swallowed: [POST /diagnose] returns a
    response in every world, and when the body of [save_conversation] raises
    (while loading, updating or writing the log) the handler prints the
    error and still returns the response with the advice and the severity
    it computed. *)
Theorem persistence_failure_is_swallowed
    (request : SymptomRequest) (w : World) :
  (exists r w', diagnose_symptoms request w = (inr r, w')) /\
  (forall text sev w1 e w2,
     answer request w = (inr (text, sev), w1) ->
     save_conversation_body (symptoms request) (text ++ disclaimer) sev w1
       = (inl e, w2) ->
     exists ts w',
       diagnose_symptoms request w =
         (inr {| advice := text ++ disclaimer; severity := sev;
                 timestamp := ts |}, w') /\
       In (ErrorSavingConversation e) (stdout w') /\
       conv_file w' = conv_file w2).
Proof.
  split.
  - destruct (diagnose_symptoms_total request w)
      as (text & sev & w1 & w2 & ts & w' & _ & _ & Hd & _).
    eauto.
  - intros text sev w1 e w2 Ha Hb.
    rewrite (diagnose_symptoms_run _ _ _ _ _ _ Ha
               (save_conversation_swallows _ _ _ _ _ _ Hb)).
    do 2 eexists. split; [reflexivity|]. split; [|reflexivity].
    cbn. apply in_or_app. right. simpl. auto.
Qed.

Lemma persistence_failure_is_swallowed_witness :
  exists ts w',
    diagnose_symptoms fever_request read_only_world =
      (inr {| advice := serious_default ++ disclaimer; severity := "serious";
              timestamp := ts |}, w') /\
    In (ErrorSavingConversation Py.OSError) (stdout w') /\
    conv_file w' = Holds one_entry_document.
Proof.
  apply (proj2 (persistence_failure_is_swallowed fever_request read_only_world)
           serious_default "serious" read_only_world Py.OSError
           (set_ticks 1 read_only_world)); reflexivity.
Defined.

(** * Further properties of the code *)

(** ** Substrings *)

Lemma string_app_assoc (a b c : string) : (a ++ b) ++ c = a ++ (b ++ c).
Proof. induction a as [|x a IH]; simpl; [reflexivity | now rewrite IH]. Qed.

Lemma lower_app (a b : string) :
  Py.lower (a ++ b) = Py.lower a ++ Py.lower b.
Proof. induction a as [|x a IH]; simpl; [reflexivity | now rewrite IH]. Qed.

(** A substring of a substring is a substring. *)
Lemma contains_trans (a b s : string) :
  Py.contains a b = true -> Py.contains b s = true -> Py.contains a s = true.
Proof.
  rewrite !contains_true_iff.
  intros (p1 & q1 & ->) (p2 & q2 & ->).
  exists (p2 ++ p1), (q1 ++ q2).
  now rewrite !string_app_assoc.
Qed.

(** What occurs in a text occurs in every text around it. *)
Lemma contains_embedded (kw a s b : string) :
  Py.contains kw s = true -> Py.contains kw (a ++ s ++ b) = true.
Proof.
  rewrite !contains_true_iff. intros (p & q & ->).
  exists (a ++ p), (q ++ b). now rewrite !string_app_assoc.
Qed.

(** A keyword that holds another one never adds anything to a test. *)
Lemma contains_subsumed (long short s : string) :
  Py.contains short long = true ->
  Py.contains long s || Py.contains short s = Py.contains short s.
Proof.
  intros H. destruct (Py.contains long s) eqn:E; [|reflexivity].
  now rewrite (contains_trans _ _ _ H E).
Qed.

(** ** More on the classifier *)

(** X1: three of the tests of [get_fallback_response] add nothing: the
    serious keywords "chest pain" and "breathing" are covered by "chest" and
    "breath", and the test for "headache" by the one for "head".  So any
    text with "head" in it (and no serious keyword) gets the headache
    advice. *)
Theorem redundant_keywords (s : string) :
  Py.any_in serious_keywords s =
    Py.any_in ["chest"; "breath"; "severe"; "emergency"; "unconscious";
               "bleeding heavily"] s /\
  Py.contains "headache" s || Py.contains "head" s = Py.contains "head" s /\
  (Py.any_in serious_keywords (Py.lower s) = false ->
   Py.contains "head" (Py.lower s) = true ->
   get_fallback_response s = inr (mild_headache, "mild")).
Proof.
  split; [|split].
  - unfold Py.any_in, serious_keywords. cbn [existsb].
    rewrite !orb_assoc.
    rewrite (contains_subsumed "chest pain" "chest" s eq_refl).
    rewrite <- (orb_assoc (Py.contains "chest" s)).
    rewrite (contains_subsumed "breathing" "breath" s eq_refl).
    reflexivity.
  - apply contains_subsumed. reflexivity.
  - intros Hs Hh. unfold get_fallback_response.
    rewrite Hs, Hh, orb_true_r. reflexivity.
Qed.

Lemma redundant_keywords_witness :
  Py.any_in serious_keywords (Py.lower "Go ahead") = false /\
  Py.contains "head" (Py.lower "Go ahead") = true /\
  get_fallback_response "Go ahead" = inr (mild_headache, "mild").
Proof.
  split; [reflexivity|]. split; [reflexivity|].
  apply (proj2 (proj2 (redundant_keywords "Go ahead"))); reflexivity.
Defined.

(** X2: the severity of [get_fallback_response] is "mild" exactly when the
    lowercased symptoms hold no serious keyword and hold one of "head",
    "cold", "cough", "runny nose" or a mild indicator; in every other case,
    the empty string included, it is "serious". *)
Theorem mild_exactly_when (s : string) :
  (exists text, get_fallback_response s = inr (text, "mild")) <->
  Py.any_in serious_keywords (Py.lower s) = false /\
  Py.any_in ("head" :: "cold" :: "cough" :: "runny nose" :: mild_indicators)
    (Py.lower s) = true.
Proof.
  unfold get_fallback_response.
  rewrite (proj1 (proj2 (redundant_keywords (Py.lower s)))).
  unfold Py.any_in at 2 4. unfold mild_indicators. cbn [existsb].
  destruct (Py.any_in serious_keywords (Py.lower s)) eqn:Hs.
  - split.
    + intros [text H]. revert H. split_ifs; autorewrite with canned;
        intros H; injection H as _ H; discriminate.
    + intros [H _]. discriminate.
  - destruct (Py.contains "head" (Py.lower s));
    destruct (Py.contains "cold" (Py.lower s));
    destruct (Py.contains "cough" (Py.lower s));
    destruct (Py.contains "runny nose" (Py.lower s));
    destruct (Py.contains "fever" (Py.lower s));
    destruct (Py.contains "mild" (Py.lower s));
    destruct (Py.contains "slight" (Py.lower s));
    destruct (Py.contains "little" (Py.lower s));
    destruct (Py.contains "minor" (Py.lower s));
    cbn; autorewrite with canned;
    (split;
     [ intros [text H]; split; [reflexivity|];
       try reflexivity; injection H as _ H; discriminate
     | intros [_ H]; try discriminate; eexists; reflexivity ]).
Qed.

(** X3: a serious keyword cannot be talked down: when the lowercased
    symptoms hold a serious keyword, so does every text that holds these
    symptoms, and its severity is "serious" too. *)
Theorem serious_survives_embedding (s before after kw : string) :
  In kw serious_keywords ->
  Py.contains kw (Py.lower s) = true ->
  exists text,
    get_fallback_response (before ++ s ++ after) = inr (text, "serious").
Proof.
  intros Hin Hc.
  assert (H : Py.any_in serious_keywords (Py.lower (before ++ s ++ after))
              = true).
  { apply any_in_true_iff. exists kw. split; [exact Hin|].
    rewrite !lower_app. now apply contains_embedded. }
  rewrite (serious_branch _ H). split_ifs; eexists; reflexivity.
Qed.

Lemma serious_survives_embedding_witness :
  exists text,
    get_fallback_response
      ("Only a little, minor thing: " ++ "Chest feels odd" ++ ", very mild")
    = inr (text, "serious").
Proof.
  apply (serious_survives_embedding "Chest feels odd"
           "Only a little, minor thing: " ", very mild" "chest");
    [simpl; tauto | reflexivity].
Defined.

Lemma mild_exactly_when_witness :
  exists text, get_fallback_response "A slight COUGH" = inr (text, "mild").
Proof.
  apply (proj2 (mild_exactly_when "A slight COUGH")). split; reflexivity.
Defined.

(** ** The model's reply *)

Lemma startswith_true_iff (t s : string) :
  Py.startswith t s = true <-> exists r, s = t ++ r.
Proof.
  revert s; induction t as [|c t IH]; intros s; simpl.
  - split; [intros _; exists s; reflexivity | reflexivity].
  - destruct s as [|d s]; [split; [discriminate | intros [r H]; discriminate]|].
    rewrite andb_true_iff, Ascii.eqb_eq, IH. split.
    + intros [-> [r ->]]. now exists r.
    + intros [r H]. injection H as -> ->. split; [reflexivity | now exists r].
Qed.

Lemma prefix_cons (c d : ascii) (k x : string) :
  String.prefix (String c k) (String d x)
  = if Ascii.ascii_dec c d then String.prefix k x else false.
Proof. simpl. destruct (Ascii.ascii_dec c d); reflexivity. Qed.

Lemma prefix_nil (x : string) : String.prefix EmptyString x = true.
Proof. destruct x; reflexivity. Qed.

Lemma lower_full_lowered (s : string) :
  lowered s (Py.lower_full s) (Py.lower s).
Proof.
  destruct s as [|c s]; [constructor|].
  unfold Py.lower_full. cbn [Py.lower_from].
  destruct (Py.startswith Py.KELVIN_SIGN (String c s)) eqn:Ek.
  - apply startswith_true_iff in Ek. destruct Ek as [r Er]. rewrite Er.
    injection Er as -> ->. exact (lowered_kelvin r).
  - destruct (Py.startswith Py.CAPITAL_I_WITH_DOT (String c s)) eqn:Ei.
    + apply startswith_true_iff in Ei. destruct Ei as [r Er]. rewrite Er.
      injection Er as -> ->. exact (lowered_dotted r).
    + exact (lowered_byte c s).
Qed.

Lemma plain_keyword_head (c : ascii) (k : string) :
  plain_keyword (String c k) = true ->
  (N_of_ascii c <? 128)%N = true /\ c <> "k"%char /\
  (k = EmptyString -> c <> "i"%char) /\ plain_keyword k = true.
Proof.
  cbn [plain_keyword]. rewrite !andb_true_iff.
  intros [[Ha Hk] Hr].
  apply negb_true_iff, Ascii.eqb_neq in Hk.
  split; [exact Ha|]. split; [exact Hk|]. split.
  - intros ->. now apply negb_true_iff, Ascii.eqb_neq in Hr.
  - destruct k; [reflexivity | exact Hr].
Qed.

(** A plain keyword starts the one lowered text when it starts the other. *)
Lemma prefix_lower_full (n : nat) :
  forall k s, String.length s <= n -> plain_keyword k = true ->
              String.prefix k (Py.lower_full s) = String.prefix k (Py.lower s).
Proof.
  induction n as [|n IH]; intros k s Hlen Hk.
  - destruct s; [reflexivity | simpl in Hlen; lia].
  - destruct k as [|c k]; [now rewrite !prefix_nil|].
    destruct (plain_keyword_head _ _ Hk) as (Ha & Hnk & Hni & Hk').
    destruct (lower_full_lowered s) as [|r|r|d r].
    + reflexivity.
    + change (Py.KELVIN_SIGN ++ Py.lower r)
        with (String "226" (String "132" (String "170" (Py.lower r)))).
      rewrite !prefix_cons.
      destruct (Ascii.ascii_dec c "k"); [contradiction|].
      destruct (Ascii.ascii_dec c "226") as [->|]; [discriminate | reflexivity].
    + change (Py.CAPITAL_I_WITH_DOT ++ Py.lower r)
        with (String "196" (String "176" (Py.lower r))).
      change (Py.COMBINING_DOT ++ Py.lower_full r)
        with (String "204" (String "135" (Py.lower_full r))).
      rewrite !prefix_cons.
      destruct (Ascii.ascii_dec c "196") as [->|]; [discriminate|].
      destruct (Ascii.ascii_dec c "i") as [->|]; [|reflexivity].
      destruct k as [|c' k]; [now contradiction Hni|].
      destruct (plain_keyword_head _ _ Hk') as (Ha' & _).
      rewrite prefix_cons.
      destruct (Ascii.ascii_dec c' "204") as [->|]; [discriminate | reflexivity].
    + rewrite !prefix_cons. destruct (Ascii.ascii_dec c (Py.lower_char d));
        [|reflexivity].
      apply IH; [simpl in Hlen; lia | exact Hk'].
Qed.

(** The tests of a plain keyword do not tell [Py.lower] from
    [Py.lower_full]: this is why the classifier may use the first. *)
Lemma contains_lower_full (kw s : string) :
  plain_keyword kw = true ->
  Py.contains kw (Py.lower_full s) = Py.contains kw (Py.lower s).
Proof.
  intros Hk. remember (String.length s) as n eqn:Hn.
  assert (Hlen : String.length s <= n) by lia. clear Hn.
  revert s Hlen. induction n as [|n IH]; intros s Hlen.
  - destruct s; [reflexivity | simpl in Hlen; lia].
  - destruct kw as [|c kw].
    { destruct (Py.lower_full s), (Py.lower s); reflexivity. }
    destruct (plain_keyword_head _ _ Hk) as (Ha & Hnk & Hni & Hk').
    pose proof (prefix_lower_full (S n) _ s Hlen Hk) as Hp.
    destruct (lower_full_lowered s) as [|r|r|d r].
    + reflexivity.
    + change (Py.KELVIN_SIGN ++ Py.lower r)
        with (String "226" (String "132" (String "170" (Py.lower r)))) in *.
      cbn [Py.contains]. rewrite !prefix_cons.
      destruct (Ascii.ascii_dec c "k"); [contradiction|].
      destruct (Ascii.ascii_dec c "226") as [->|]; [discriminate|].
      destruct (Ascii.ascii_dec c "132") as [->|]; [discriminate|].
      destruct (Ascii.ascii_dec c "170") as [->|]; [discriminate|].
      cbn [orb]. apply IH.
      change (Py.KELVIN_SIGN ++ r)
        with (String "226" (String "132" (String "170" r))) in Hlen.
      simpl in Hlen. lia.
    + change (Py.CAPITAL_I_WITH_DOT ++ Py.lower r)
        with (String "196" (String "176" (Py.lower r))) in *.
      change (Py.COMBINING_DOT ++ Py.lower_full r)
        with (String "204" (String "135" (Py.lower_full r))) in *.
      cbn [Py.contains]. rewrite Hp. rewrite !prefix_cons.
      destruct (Ascii.ascii_dec c "196") as [->|]; [discriminate|].
      destruct (Ascii.ascii_dec c "176") as [->|]; [discriminate|].
      destruct (Ascii.ascii_dec c "204") as [->|]; [discriminate|].
      destruct (Ascii.ascii_dec c "135") as [->|]; [discriminate|].
      cbn [orb]. apply IH.
      change (Py.CAPITAL_I_WITH_DOT ++ r)
        with (String "196" (String "176" r)) in Hlen.
      simpl in Hlen. lia.
    + cbn [Py.contains]. rewrite Hp. f_equal.
      apply IH. simpl in Hlen. lia.
Qed.

Lemma classifier_keywords_plain (kw : string) :
  In kw (serious_keywords ++
         ["headache"; "head"; "cold"; "cough"; "runny nose"; "fever"] ++
         mild_indicators) ->
  plain_keyword kw = true.
Proof.
  simpl. intros H; repeat destruct H as [<-|H]; try contradiction;
    reflexivity.
Qed.

(** X14: no test of [get_fallback_response] is touched by the two non-ASCII
    code points whose lowercase holds an ASCII letter (U+212A becomes k,
    U+0130 becomes i and U+0307): no keyword of the classifier holds a k or
    ends in i, so each of its tests gives the same on the symptoms lowered
    with these two code points handled as on the symptoms lowered in their
    ASCII capitals only. *)
Theorem classifier_tests_ignore_special_casing (kw s : string) :
  In kw (serious_keywords ++
         ["headache"; "head"; "cold"; "cough"; "runny nose"; "fever"] ++
         mild_indicators) ->
  Py.contains kw (Py.lower_full s) = Py.contains kw (Py.lower s).
Proof.
  intros H. apply contains_lower_full. exact (classifier_keywords_plain kw H).
Qed.

Lemma classifier_tests_ignore_special_casing_witness :
  Py.contains "cough" (Py.lower_full ("COUGH" ++ Py.KELVIN_SIGN))
  = Py.contains "cough" (Py.lower ("COUGH" ++ Py.KELVIN_SIGN)).
Proof.
  apply (classifier_tests_ignore_special_casing "cough").
  simpl. tauto.
Defined.

(** [Py.lstrip] passes over a whitespace code point. *)
Lemma lstrip_token (t s : string) :
  In t Py.whitespace -> Py.lstrip (t ++ s) = Py.lstrip s.
Proof.
  intros H. cbv in H.
  repeat (destruct H as [<-|H]; [reflexivity|]). contradiction.
Qed.

Lemma lstrip_blank (s : string) : blank s -> Py.lstrip s = EmptyString.
Proof.
  intros H. induction H as [|t s Ht Hs IH]; [reflexivity|].
  now rewrite lstrip_token.
Qed.

Lemma strip_blank (s : string) : blank s -> Py.strip s = EmptyString.
Proof. intros H. unfold Py.strip. now rewrite (lstrip_blank s H). Qed.

(** X5: when the model replies with whitespace only (any of the code points
    that [str.strip] removes, or nothing at all), the advice of
    [POST /diagnose] is the bare disclaimer and the severity is "mild": the
    fallback classifier is not consulted. *)
Theorem blank_reply_gives_bare_disclaimer
    (request : SymptomRequest) (w : World) create content :
  client w = Some create ->
  create (user_message request) = inr content ->
  blank content ->
  exists ts w',
    diagnose_symptoms request w =
      (inr {| advice := disclaimer; severity := "mild"; timestamp := ts |},
       w').
Proof.
  intros Hc Hm Hb.
  destruct (diagnose_symptoms_total request w)
    as (text & sev & w1 & w2 & ts & w' & Ha & _ & Hd & _).
  exists ts, w'. rewrite Hd.
  inversion Ha; subst; try congruence.
  assert (content0 = content) by congruence. subst content0.
  rewrite (strip_blank _ Hb). reflexivity.
Qed.

Lemma blank_reply_is_blank : blank blank_reply.
Proof.
  unfold blank_reply, blank.
  repeat (apply made_more;
          [cbv; repeat (first [left; reflexivity | right])|]).
  change nl with (nl ++ EmptyString).
  apply made_more; [cbv; repeat (first [left; reflexivity | right])|].
  constructor.
Defined.

Lemma blank_reply_gives_bare_disclaimer_witness :
  exists ts w',
    diagnose_symptoms fever_request blank_client_world =
      (inr {| advice := disclaimer; severity := "mild"; timestamp := ts |},
       w').
Proof.
  apply (blank_reply_gives_bare_disclaimer fever_request blank_client_world
           (fun _ => inr blank_reply) blank_reply eq_refl eq_refl).
  exact blank_reply_is_blank.
Defined.

(** *** What [strip] cuts off *)













Lemma tail_clean_tail (c : ascii) (k : string) :
  tail_clean (String c k) = true -> k <> EmptyString ->
  tail_clean k = true.
Proof. destruct k; [congruence | auto]. Qed.





(** *** Lowercasing next to a blank *)














(** ** What a request does to the world *)

(** [save_conversation] reads the clock once, even when it saves nothing,
    and touches neither the client nor the disk's state. *)
Lemma save_conversation_effect (u a s : string) (w : World) :
  exists w',
    save_conversation u a s w = (inr tt, w') /\
    ticks w' = S (ticks w) /\ clock w' = clock w /\
    client w' = client w /\ disk w' = disk w.
Proof.
  unfold save_conversation, try_except, save_conversation_body, bind.
  rewrite load_conversations_run.
  unfold datetime_now_isoformat, lift, json_dump_file, print.
  destruct (conv_file w) as [| |doc];
    cbn [set_ticks set_stdout conv_file disk client clock ticks stdout];
    match goal with
    | |- context [append_conversation ?d ?c] =>
        destruct (append_conversation d c) as [e|data']
    end;
    try (eexists; split; [reflexivity|]; cbn; auto; fail);
    destruct (disk w) eqn:Ed; eexists; (split; [reflexivity|]); cbn; auto.
Qed.

(** X6: the advice and the severity of a response depend on the client and
    on the request only: two worlds with the same client answer a request
    alike, whatever their log files, disks, clocks and printed lines. *)
Theorem response_independent_of_log
    (request : SymptomRequest) (w1 w2 : World) :
  client w1 = client w2 ->
  exists r1 w1' r2 w2',
    diagnose_symptoms request w1 = (inr r1, w1') /\
    diagnose_symptoms request w2 = (inr r2, w2') /\
    advice r1 = advice r2 /\ severity r1 = severity r2.
Proof.
  intros Hc.
  destruct (diagnose_symptoms_total request w1)
    as (t1 & s1 & u1 & v1 & ts1 & w1' & Ha1 & _ & Hd1 & _).
  destruct (diagnose_symptoms_total request w2)
    as (t2 & s2 & u2 & v2 & ts2 & w2' & Ha2 & _ & Hd2 & _).
  do 4 eexists. split; [exact Hd1|]. split; [exact Hd2|]. cbn [advice severity].
  inversion Ha1; subst; inversion Ha2; subst; split; congruence.
Qed.

Lemma response_independent_of_log_witness :
  exists r1 w1' r2 w2',
    diagnose_symptoms chest_request fresh_world = (inr r1, w1') /\
    diagnose_symptoms chest_request read_only_world = (inr r2, w2') /\
    advice r1 = advice r2 /\ severity r1 = severity r2.
Proof.
  apply (response_independent_of_log chest_request fresh_world
           read_only_world). reflexivity.
Defined.

(** X7: every [POST /diagnose] reads the clock twice, whether or not the
    conversation gets saved: the first reading is the one
    [save_conversation] puts in the record, the second, later one is the
    timestamp of the response. *)
Theorem diagnose_reads_clock_twice (request : SymptomRequest) (w : World) :
  exists r w',
    diagnose_symptoms request w = (inr r, w') /\
    timestamp r = clock w (S (ticks w)) /\
    ticks w' = S (S (ticks w)) /\
    clock w' = clock w.
Proof.
  destruct (answer_answered request w) as ([text sev] & w1 & Ha & Hw).
  destruct (answered_frame _ _ _ _ Hw) as (_ & _ & Hc & Ht & _).
  destruct (save_conversation_effect (symptoms request) (text ++ disclaimer)
              sev w1) as (w2 & Hs & Ht2 & Hc2 & _ & _).
  rewrite (diagnose_symptoms_run _ _ _ _ _ _ Ha Hs).
  do 2 eexists. split; [reflexivity|]. cbn.
  rewrite Hc2, Ht2, Hc, Ht. auto.
Qed.

(** One request on an extendable log. *)
Lemma diagnose_symptoms_step request w fields items :
  extendable w fields items ->
  exists r w',
    diagnose_symptoms request w = (inr r, w') /\
    conv_file w' =
      Holds (JDict (dict_set "conversations"
                      (JList (items ++
                                [conversation_record (symptoms request)
                                   (advice r) (severity r)
                                   (clock w (ticks w))]))
                      fields)) /\
    disk w' = Writable.
Proof.
  intros (Hdisk & Hdoc & Hconv).
  destruct (answer_answered request w) as ([text sev] & w1 & Ha & Hw).
  destruct (answered_frame _ _ _ _ Hw) as (Hf & Hd & Hc & Ht & _).
  destruct (save_conversation_appends (symptoms request) (text ++ disclaimer)
              sev w1 fields items) as (w2 & Hs & Hfile);
    [now rewrite Hd | now rewrite Hf | exact Hconv |].
  destruct (save_conversation_effect (symptoms request) (text ++ disclaimer)
              sev w1) as (w2' & Hs' & _ & _ & _ & Hd2).
  assert (w2' = w2) by congruence. subst w2'.
  rewrite (diagnose_symptoms_run _ _ _ _ _ _ Ha Hs).
  do 2 eexists. split; [reflexivity|]. cbn [advice severity].
  rewrite Hc, Ht in Hfile. split; [exact Hfile|].
  cbn. now rewrite Hd2, Hd.
Qed.

(** X8: on a writable disk a missing log file is created and a log file
    that cannot be parsed is overwritten: after the request the file holds
    a fresh document with the new record as its only entry, and whatever
    the unparsable file held is gone. *)
Theorem diagnose_resets_unusable_log (request : SymptomRequest) (w : World) :
  disk w = Writable ->
  conv_file w = Missing \/ conv_file w = Unreadable ->
  exists r w',
    diagnose_symptoms request w = (inr r, w') /\
    conv_file w' =
      Holds (JDict [("conversations",
                     JList [conversation_record (symptoms request) (advice r)
                              (severity r) (clock w (ticks w))])]).
Proof.
  intros Hdisk Hfile.
  destruct (diagnose_symptoms_step request w
              [("conversations", JList [])] [])
    as (r & w' & Hd & Hf & _).
  { split; [exact Hdisk|]. split; [|reflexivity].
    destruct Hfile as [-> | ->]; reflexivity. }
  exists r, w'. split; [exact Hd | exact Hf].
Qed.

Lemma diagnose_resets_unusable_log_witness :
  exists r w',
    diagnose_symptoms fever_request corrupt_world = (inr r, w') /\
    conv_file w' =
      Holds (JDict [("conversations",
                     JList [conversation_record (symptoms fever_request)
                              (advice r) (severity r) (sample_clock 0)])]).
Proof.
  apply (diagnose_resets_unusable_log fever_request corrupt_world);
    [reflexivity | right; reflexivity].
Defined.

(** [append_conversation] on a document of another shape. *)
Lemma append_conversation_misshapen (doc conversation : json) :
  ~ well_formed_log (Holds doc) ->
  exists e,
    append_conversation doc conversation = inl e /\
    (e = Py.TypeError \/ e = Py.KeyError "conversations" \/
     e = Py.AttributeError).
Proof.
  intros Hn. unfold append_conversation, Py.getitem.
  destruct doc as [| | | | | |fields]; try (eexists; split; [reflexivity|]; tauto).
  destruct (Py.dict_get "conversations" fields) as [v|] eqn:E;
    [|eexists; split; [reflexivity|]; tauto].
  destruct v; try (eexists; split; [reflexivity|]; tauto).
  exfalso. apply Hn. now exists fields, items.
Qed.

(** X9: when the log file holds valid JSON of another shape (not an object,
    no "conversations" key, or a value there that is not a list) the request
    is answered as usual, the file is left exactly as it was, on any disk,
    and the error is printed: [TypeError], [KeyError] on "conversations" or
    [AttributeError]. *)
Theorem diagnose_keeps_misshapen_log
    (request : SymptomRequest) (w : World) (doc : json) :
  conv_file w = Holds doc ->
  ~ well_formed_log (Holds doc) ->
  exists r w' e,
    diagnose_symptoms request w = (inr r, w') /\
    conv_file w' = Holds doc /\
    In (ErrorSavingConversation e) (stdout w') /\
    (e = Py.TypeError \/ e = Py.KeyError "conversations" \/
     e = Py.AttributeError).
Proof.
  intros Hfile Hn.
  destruct (answer_answered request w) as ([text sev] & w1 & Ha & Hw).
  destruct (answered_frame _ _ _ _ Hw) as (Hf & _ & Hc & Ht & _).
  destruct (append_conversation_misshapen doc
              (conversation_record (symptoms request) (text ++ disclaimer)
                 sev (clock w1 (ticks w1))) Hn) as (e & He & Hcases).
  assert (Hb : save_conversation_body (symptoms request) (text ++ disclaimer)
                 sev w1 = (inl e, set_ticks (S (ticks w1)) w1)).
  { unfold save_conversation_body, bind. rewrite load_conversations_run.
    rewrite Hf, Hfile. unfold datetime_now_isoformat, lift.
    rewrite He. reflexivity. }
  rewrite (diagnose_symptoms_run _ _ _ _ _ _ Ha
             (save_conversation_swallows _ _ _ _ _ _ Hb)).
  do 3 eexists. split; [reflexivity|]. cbn.
  split; [now rewrite Hf|]. split; [|exact Hcases].
  apply in_or_app. right. left. reflexivity.
Qed.

Lemma diagnose_keeps_misshapen_log_witness :
  exists r w' e,
    diagnose_symptoms fever_request misshapen_world = (inr r, w') /\
    conv_file w' = Holds (JList []) /\
    In (ErrorSavingConversation e) (stdout w') /\
    (e = Py.TypeError \/ e = Py.KeyError "conversations" \/
     e = Py.AttributeError).
Proof.
  apply (diagnose_keeps_misshapen_log fever_request misshapen_world
           (JList []) eq_refl).
  intros (fields & items & H & _). discriminate.
Defined.

Lemma extendable_conversations w fields items :
  extendable w fields items -> conversations_of (conv_file w) = items.
Proof.
  intros (_ & Hdoc & Hconv). unfold conversations_of.
  now rewrite Hdoc, Hconv.
Qed.

(** X10: a run of requests on a writable disk and a usable log adds one
    entry per request, in the order the requests were served, after the
    entries already there; every request is answered and each entry holds
    the symptoms of its request and the advice and severity returned for
    it. *)
Theorem diagnose_all_appends_in_order
    (requests : list SymptomRequest) (w : World) fields items :
  extendable w fields items ->
  exists new,
    conversations_of (conv_file (snd (diagnose_all requests w)))
      = (items ++ new)%list /\
    Forall2 logged_as (combine requests (fst (diagnose_all requests w))) new /\
    length (fst (diagnose_all requests w)) = length requests /\
    length new = length requests.
Proof.
  revert w fields items.
  induction requests as [|request rest IH]; intros w fields items Hext.
  - exists []. cbn. rewrite app_nil_r.
    split; [exact (extendable_conversations _ _ _ Hext)|].
    split; [constructor | split; reflexivity].
  - destruct (diagnose_symptoms_step request w fields items Hext)
      as (r & w1 & Hd & Hf & Hdisk).
    pose (entry := conversation_record (symptoms request) (advice r)
                     (severity r) (clock w (ticks w))).
    assert (Hext1 : extendable w1
                      (dict_set "conversations"
                         (JList (items ++ [entry])) fields)
                      (items ++ [entry])).
    { destruct Hext as (_ & _ & Hconv).
      split; [exact Hdisk|]. split; [now rewrite Hf|].
      exact (dict_get_dict_set_same _ _ _ _ Hconv). }
    destruct (IH w1 _ _ Hext1) as (new & Hc & Hl & Hn & Hm).
    exists (entry :: new). cbn [diagnose_all]. rewrite Hd.
    destruct (diagnose_all rest w1) as [rs w2]. cbn [fst snd] in *.
    split; [now rewrite Hc, <- app_assoc|].
    split; [|cbn; split; congruence].
    cbn [combine]. constructor; [|exact Hl].
    exists r, (clock w (ticks w)). split; reflexivity.
Qed.

Lemma diagnose_all_appends_in_order_witness :
  exists new,
    conversations_of
      (conv_file (snd (diagnose_all [fever_request; chest_request]
                         logged_world)))
      = (old_entry :: new)%list /\
    length new = 2.
Proof.
  destruct (diagnose_all_appends_in_order [fever_request; chest_request]
              logged_world [("conversations", JList [old_entry])] [old_entry])
    as (new & Hc & _ & _ & Hn).
  - split; [reflexivity|]. split; reflexivity.
  - exists new. split; [exact Hc | exact Hn].
Defined.

(** X11: what [POST /diagnose] saves, [GET /history] returns: on a writable
    disk and a usable log, the history asked for right after a request is a
    document whose "conversations" are the earlier entries followed by the
    record of that request, with the advice and severity just returned. *)
Theorem history_after_diagnose
    (request : SymptomRequest) (w : World) fields items :
  extendable w fields items ->
  exists r w1 history w2,
    diagnose_symptoms request w = (inr r, w1) /\
    get_conversation_history w1 = (inr (JDict history), w2) /\
    Py.dict_get "conversations" history =
      Some (JList (items ++
                     [conversation_record (symptoms request) (advice r)
                        (severity r) (clock w (ticks w))])).
Proof.
  intros Hext.
  destruct (diagnose_symptoms_step request w fields items Hext)
    as (r & w1 & Hd & Hf & _).
  destruct Hext as (_ & _ & Hconv).
  exists r, w1. do 2 eexists. split; [exact Hd|].
  unfold get_conversation_history, try_except.
  rewrite load_conversations_run, Hf.
  split; [reflexivity|].
  exact (dict_get_dict_set_same _ _ _ _ Hconv).
Qed.

Lemma history_after_diagnose_witness :
  exists r w1 history w2,
    diagnose_symptoms fever_request fresh_world = (inr r, w1) /\
    get_conversation_history w1 = (inr (JDict history), w2) /\
    Py.dict_get "conversations" history =
      Some (JList [conversation_record (symptoms fever_request) (advice r)
                     (severity r) (sample_clock 0)]).
Proof.
  apply (history_after_diagnose fever_request fresh_world
           [("conversations", JList [])] []).
  split; [reflexivity|]. split; reflexivity.
Defined.

(** ** The status endpoints *)

Lemma health_check_run (w : World) :
  health_check w =
    (inr (JDict [ ("status", JStr "healthy");
                  ("timestamp", JStr (clock w (ticks w)));
                  ("openai_configured", JBool (client_is_not_None w));
                  ("conversations_file_exists",
                   JBool match conv_file w with
                         | Missing => false
                         | Unreadable | Holds _ => true
                         end) ]),
     set_ticks (S (ticks w)) w).
Proof.
  unfold health_check, bind, datetime_now_isoformat, os_path_exists, ret.
  cbn. destruct (conv_file w); reflexivity.
Qed.

(** The log file after a request. *)
Lemma diagnose_symptoms_file (request : SymptomRequest) (w : World) :
  exists r w',
    diagnose_symptoms request w = (inr r, w') /\
    (conv_file w' = Missing <-> conv_file w = Missing /\ disk w = Refusing).
Proof.
  destruct (answer_answered request w) as ([text sev] & w1 & Ha & Hw).
  destruct (answered_frame _ _ _ _ Hw) as (Hf & Hd & _ & _ & _).
  destruct (save_conversation_total (symptoms request) (text ++ disclaimer)
              sev w1) as [w2 Hs].
  rewrite (diagnose_symptoms_run _ _ _ _ _ _ Ha Hs).
  do 2 eexists. split; [reflexivity|].
  change (conv_file (set_ticks (S (ticks w2)) w2)) with (conv_file w2).
  rewrite <- Hf, <- Hd. clear Ha Hw Hf Hd. revert Hs.
  unfold save_conversation, try_except, save_conversation_body, bind.
  rewrite load_conversations_run.
  unfold datetime_now_isoformat, lift, json_dump_file, print.
  destruct (conv_file w1) as [| |doc] eqn:Ef;
    cbn [set_ticks set_stdout conv_file disk client clock ticks stdout];
    match goal with
    | |- context [append_conversation ?d ?c] =>
        destruct (append_conversation d c) as [e|data'] eqn:Ea
    end;
    try (cbn in Ea; discriminate);
    try (intros Hs; injection Hs as <-; cbn; rewrite Ef;
         split; [discriminate | intros [H _]; discriminate]; fail);
    destruct (disk w1) eqn:Ed; intros Hs; injection Hs as <-; cbn;
    rewrite ?Ef;
    (split; [try discriminate; auto | intros [H1 H2]; congruence]).
Qed.

(** X12: [GET /health] never fails, always says "healthy" and leaves the
    log file alone; asked right after a [POST /diagnose] it reports that
    the conversations file exists in every case but one: the file was
    missing before the request and the disk refused the write. *)
Theorem health_after_diagnose (request : SymptomRequest) (w : World) :
  exists r w1 report w2,
    diagnose_symptoms request w = (inr r, w1) /\
    health_check w1 = (inr (JDict report), w2) /\
    conv_file w2 = conv_file w1 /\
    Py.dict_get "status" report = Some (JStr "healthy") /\
    Py.dict_get "conversations_file_exists" report =
      Some (JBool match conv_file w, disk w with
                  | Missing, Refusing => false
                  | _, _ => true
                  end).
Proof.
  destruct (diagnose_symptoms_file request w) as (r & w1 & Hd & Hm).
  exists r, w1. rewrite health_check_run. do 2 eexists.
  split; [exact Hd|]. split; [reflexivity|]. split; [reflexivity|].
  split; [reflexivity|]. cbn.
  destruct (conv_file w1) eqn:E1.
  - destruct (proj1 Hm eq_refl) as [-> ->]. reflexivity.
  - destruct (conv_file w) eqn:E, (disk w) eqn:Ed; try reflexivity.
    discriminate (proj2 Hm (conj eq_refl eq_refl)).
  - destruct (conv_file w) eqn:E, (disk w) eqn:Ed; try reflexivity.
    discriminate (proj2 Hm (conj eq_refl eq_refl)).
Qed.

(** X13: [GET /] changes nothing, and its "openai_available" flag is the
    "openai_configured" flag of [GET /health]; when the flag is false every
    [POST /diagnose] answers with one of the eight canned texts followed
    by the disclaimer. *)
Theorem root_flag_tells_fallback (request : SymptomRequest) (w : World) :
  exists info report w2,
    root w = (inr (JDict info), w) /\
    health_check w = (inr (JDict report), w2) /\
    Py.dict_get "openai_available" info
      = Py.dict_get "openai_configured" report /\
    (Py.dict_get "openai_available" info = Some (JBool false) ->
     exists r w' text,
       diagnose_symptoms request w = (inr r, w') /\
       In text canned_texts /\
       advice r = text ++ disclaimer).
Proof.
  rewrite health_check_run. unfold root. do 3 eexists.
  split; [reflexivity|]. split; [reflexivity|]. split; [reflexivity|].
  cbn. unfold client_is_not_None.
  destruct (client w) as [create|] eqn:Hc; [discriminate|]. intros _.
  destruct (diagnose_symptoms_total request w)
    as (text & sev & w1 & w2 & ts & w' & Ha & _ & Hd & _).
  eexists; exists w', text. split; [exact Hd|]. split; [|reflexivity].
  inversion Ha; subst; try congruence.
  destruct (get_fallback_response_row (symptoms request))
    as (sev' & key & text' & Hin & E).
  destruct (row_is_lookup _ _ _ Hin) as (_ & _ & _ & _ & Ht).
  assert (text' = text) by congruence. subst text'. exact Ht.
Qed.

Lemma root_flag_tells_fallback_witness :
  exists r w' text,
    diagnose_symptoms fever_request fresh_world = (inr r, w') /\
    In text canned_texts /\
    advice r = text ++ disclaimer.
Proof.
  destruct (root_flag_tells_fallback fever_request fresh_world)
    as (info & report & w2 & Hr & _ & _ & H).
  apply H. injection Hr as <-. reflexivity.
Defined.
